(** * dealformater.data: holdings of a bridge hand, validated and rendered

    A shallow embedding of [src/dealformater/data.py] (classes [Constants],
    [SuitHolding] and [Hand]) together with the properties the
    specification states about them.

    Python values are modelled as follows.
    - A [str] is the list of its Unicode code points ([N]).
    - A raised exception is a value of [exn]; a computation that may raise
      has type [result A].  [try_except] is the [try: ... except
      (ValueError, AttributeError): ...] statement.
    - An argument of a constructor is a [pyobj]: a [str], or an object that
      has no [upper] attribute (such as [None]), on which [.upper()] raises
      [AttributeError].  Objects that have an [upper] method without being a
      [str] ([bytes], [bytearray]) are not modelled: on them the constructor
      raises a TypeError that its except clauses do not catch. *)

From Stdlib Require Import String Ascii List NArith ZArith Bool Lia.
Import ListNotations.

Local Open Scope N_scope.

(** ** Python strings *)

Definition char := N.
Definition str := list char.

(** The character and the [str] written by an ASCII literal. *)
Definition ch (a : ascii) : char := N_of_ascii a.
Definition py (s : string) : str := map ch (list_ascii_of_string s).

Definition str_eqb (a b : str) : bool :=
  if list_eq_dec N.eq_dec a b then true else false.

(** *** Exceptions *)

Inductive exn :=
| ValueError (msg : str)
| AttributeError
| IndexError.

Inductive result (A : Type) :=
| Return (a : A)
| Raise (e : exn).
Arguments Return {A} a.
Arguments Raise {A} e.

Definition bind {A B} (m : result A) (k : A -> result B) : result B :=
  match m with
  | Return a => k a
  | Raise e => Raise e
  end.

Declare Scope py_scope.
Delimit Scope py_scope with py.
Notation "x <- m ;; k" := (bind m (fun x => k))
  (at level 61, m at next level, right associativity) : py_scope.
Local Open Scope py_scope.

(** [try: body  except (ValueError, AttributeError): handler]; any other
    exception propagates. *)
Definition try_except {A} (body : result A) (handler : result A) : result A :=
  match body with
  | Return a => Return a
  | Raise (ValueError _) => handler
  | Raise AttributeError => handler
  | Raise e => Raise e
  end.

Fixpoint mapM {A B} (f : A -> result B) (l : list A) : result (list B) :=
  match l with
  | [] => Return []
  | a :: t => b <- f a ;; bs <- mapM f t ;; Return (b :: bs)
  end.

(** *** str methods *)

(** [str.upper] on one code point.  ASCII letters are mapped exactly.
    Outside ASCII the table lists every code point whose uppercase form
    contains an ASCII character (Unicode 14, [SpecialCasing] included); every
    other code point stands for its own, non-ASCII, uppercase form.  The
    program compares uppercased text only with ASCII constants, so that is all
    it can observe of the case table. *)
Definition upper_char (c : char) : str :=
  if (ch "a" <=? c) && (c <=? ch "z") then [c - 32]
  else if c <? 128 then [c]
  else if c =? 0xdf then [0x53; 0x53]
  else if c =? 0x131 then [0x49]
  else if c =? 0x149 then [0x2bc; 0x4e]
  else if c =? 0x17f then [0x53]
  else if c =? 0x1f0 then [0x4a; 0x30c]
  else if c =? 0x1e96 then [0x48; 0x331]
  else if c =? 0x1e97 then [0x54; 0x308]
  else if c =? 0x1e98 then [0x57; 0x30a]
  else if c =? 0x1e99 then [0x59; 0x30a]
  else if c =? 0x1e9a then [0x41; 0x2be]
  else if c =? 0xfb00 then [0x46; 0x46]
  else if c =? 0xfb01 then [0x46; 0x49]
  else if c =? 0xfb02 then [0x46; 0x4c]
  else if c =? 0xfb03 then [0x46; 0x46; 0x49]
  else if c =? 0xfb04 then [0x46; 0x46; 0x4c]
  else if c =? 0xfb05 then [0x53; 0x54]
  else if c =? 0xfb06 then [0x53; 0x54]
  else [c].

Definition upper (s : str) : str := flat_map upper_char s.

(** [s.replace(old, new)] for a one-character [old], the only form the
    program uses. *)
Definition replace (s : str) (old : char) (new : str) : str :=
  flat_map (fun c => if c =? old then new else [c]) s.

Fixpoint startswith (s prefix : str) {struct prefix} : bool :=
  match prefix, s with
  | [], _ => true
  | _ :: _, [] => false
  | p :: ps, c :: cs => (p =? c) && startswith cs ps
  end.

(** [s.find(sub)]: the lowest position at which [sub] occurs in [s]. *)
Fixpoint find (s sub : str) : option nat :=
  if startswith s sub then Some 0%nat
  else match s with
       | [] => None
       | _ :: t => option_map S (find t sub)
       end.

(** [sub in s] *)
Definition contains (s sub : str) : bool :=
  match find s sub with Some _ => true | None => false end.

(** [s.index(sub)] *)
Definition index (s sub : str) : result nat :=
  match find s sub with
  | Some i => Return i
  | None => Raise (ValueError (py "substring not found"))
  end.

(** [s[i]] for a non-negative [i]. *)
Definition getitem {A} (s : list A) (i : nat) : result A :=
  match nth_error s i with
  | Some c => Return c
  | None => Raise IndexError
  end.

(** [sep.join(items)] *)
Fixpoint join (sep : str) (items : list str) : str :=
  match items with
  | [] => []
  | [x] => x
  | x :: rest => x ++ sep ++ join sep rest
  end.

(** The characters of a [str], as iteration yields them. *)
Definition chars (s : str) : list str := map (fun c => [c]) s.

(** Truth value of a [str]. *)
Definition truthy (s : str) : bool :=
  match s with [] => false | _ => true end.

(** [a or b] on strings. *)
Definition or_else (a b : str) : str := if truthy a then a else b.

(** *** Objects passed to the constructors *)

Inductive pyobj :=
| PyStr (s : str)
| PyNone.

(** [o.upper()] *)
Definition call_upper (o : pyobj) : result str :=
  match o with
  | PyStr s => Return (upper s)
  | PyNone => Raise AttributeError
  end.

(** ** class Constants *)

Module Constants.
Definition HONORS : str := py "AKQJT".
Definition SUITS : str := py "SHDC".
End Constants.

(** ** class SuitHolding *)

Module SuitHolding.

Record t := mk { _suit : str; _cards : str }.

Definition SUIT_PIPS : str := [0x2660; 0x2661; 0x2662; 0x2663].

Definition quote : str := [34].

Definition red_span (entity : string) : str :=
  py "<span style=" ++ quote ++ py "color: rgb(192, 22, 22);" ++ quote
     ++ py ">" ++ py entity ++ py "</span>".

Definition SUIT_PIPS_HTML : list str :=
  [ py "&#9824;"; red_span "&#9829;"; red_span "&#9830;"; py "&#9827;" ].

Definition suit_message : str :=
  py "Suit must be one of " ++ Constants.SUITS.

Definition cards_message : str :=
  py "Cards must consist of " ++ Constants.HONORS
     ++ py "98765432 or x" ++ py " in proper order".

Definition _validate_suit (suit : pyobj) : result str :=
  try_except
    (suit <- call_upper suit ;;
     if negb (contains Constants.SUITS suit)
     then Raise (ValueError [])
     else Return suit)
    (Raise (ValueError suit_message)).

(** The [for card in cards] loop, entered with the current [last_index]. *)
Fixpoint scan (valid_cards : str) (last_index : Z) (cards : str)
  : result unit :=
  match cards with
  | [] => Return tt
  | card :: rest =>
      current_index <- index valid_cards [card] ;;
      let current_index := Z.of_nat current_index in
      if (current_index <? last_index)%Z
         || ((current_index =? last_index)%Z && negb (str_eqb [card] (py "x")))
      then Raise (ValueError [])
      else scan valid_cards current_index rest
  end.

Definition _validate_cards (cards : pyobj) : result str :=
  try_except
    (cards <- call_upper cards ;;
     let cards := replace cards (ch "X") (py "x") in
     let valid_cards := Constants.HONORS ++ py "98765432x" in
     _ <- scan valid_cards (-1)%Z cards ;;
     Return cards)
    (Raise (ValueError cards_message)).

Definition __init__ (suit cards : pyobj) : result t :=
  suit <- _validate_suit suit ;;
  cards <- _validate_cards cards ;;
  Return (mk suit cards).

Definition suit (self : t) : str := _suit self.
Definition cards (self : t) : str := _cards self.

Definition _suit_pip (self : t) : result str :=
  i <- index Constants.SUITS (suit self) ;;
  c <- getitem SUIT_PIPS i ;;
  Return [c].

Definition _suit_pip_html (self : t) : result str :=
  i <- index Constants.SUITS (suit self) ;;
  getitem SUIT_PIPS_HTML i.

(** The test [format_spec and format_spec in 'hH']. *)
Definition html_spec (format_spec : str) : bool :=
  truthy format_spec && contains (py "hH") format_spec.

Definition __format__ (self : t) (format_spec : str) : result str :=
  pip <- (if html_spec format_spec
          then _suit_pip_html self
          else _suit_pip self) ;;
  Return (pip ++ py " "
            ++ or_else (replace (join (py " ") (chars (cards self)))
                                (ch "T") (py "10"))
                       (py "--")).

Definition __str__ (self : t) : result str := __format__ self [].

(** [type(self).__name__], for an instance of the class itself. *)
Definition __name__ : str := py "SuitHolding".

Definition __repr__ (self : t) : str :=
  __name__ ++ py "(suit='" ++ suit self ++ py "', cards='" ++ cards self
           ++ py "')".

End SuitHolding.

(** ** class Hand *)

Module Hand.

Record t := mk {
  _spades : SuitHolding.t;
  _hearts : SuitHolding.t;
  _diamonds : SuitHolding.t;
  _clubs : SuitHolding.t
}.

(** [SuitHolding(Constants.SUITS[i], cards)] *)
Definition holding (i : nat) (cards : pyobj) : result SuitHolding.t :=
  c <- getitem Constants.SUITS i ;;
  SuitHolding.__init__ (PyStr [c]) cards.

Definition __init__ (spades hearts diamonds clubs : pyobj) : result t :=
  s <- holding 0 spades ;;
  h <- holding 1 hearts ;;
  d <- holding 2 diamonds ;;
  c <- holding 3 clubs ;;
  Return (mk s h d c).

Definition spades (self : t) : str := SuitHolding.cards (_spades self).
Definition hearts (self : t) : str := SuitHolding.cards (_hearts self).
Definition diamonds (self : t) : str := SuitHolding.cards (_diamonds self).
Definition clubs (self : t) : str := SuitHolding.cards (_clubs self).

Definition _suits (self : t) : list SuitHolding.t :=
  [_spades self; _hearts self; _diamonds self; _clubs self].

(** The test [format_spec and format_spec in 'Hh']. *)
Definition html_spec (format_spec : str) : bool :=
  truthy format_spec && contains (py "Hh") format_spec.

Definition joiner (format_spec : str) : str :=
  if html_spec format_spec then py "&nbsp;&nbsp;" else py "  ".

Definition __format__ (self : t) (format_spec : str) : result str :=
  parts <- mapM (fun suit => SuitHolding.__format__ suit format_spec)
                (_suits self) ;;
  Return (join (joiner format_spec) parts).

Definition __str__ (self : t) : result str := __format__ self [].

(** [type(self).__name__], for an instance of the class itself. *)
Definition __name__ : str := py "Hand".

Definition __repr__ (self : t) : str :=
  __name__ ++ py "(spades='" ++ spades self ++ py "', "
           ++ py "hearts='" ++ hearts self ++ py "', "
           ++ py "diamonds='" ++ diamonds self ++ py "', "
           ++ py "clubs='" ++ clubs self ++ py "')".

End Hand.

(** ** The demonstration under [if __name__ == '__main__'] *)

(** The three lines it prints. *)
Definition main : result (list str) :=
  h <- Hand.__init__ (PyStr (py "ajt8")) (PyStr (py "aqt432"))
                     (PyStr (py "a5")) (PyStr (py "7")) ;;
  html <- Hand.__format__ h (py "h") ;;
  plain <- Hand.__str__ h ;;
  Return [Hand.__repr__ h; html; plain].

(** * Names for parts of the code *)

(** [_validate_cards], line 48: the ranks in descending order, the placeholder last. *)
Definition valid_cards : str := Constants.HONORS ++ py "98765432x".

(** [_validate_cards], line 47: [cards.upper().replace('X','x')]. *)
Definition canonical (cards : str) : str :=
  replace (upper cards) (ch "X") (py "x").

(** What line 47 makes of one character. *)
Definition canonical_char (c : char) : str :=
  replace (upper_char c) (ch "X") (py "x").

(** [Constants.SUITS[i]], the suit symbol [Hand] gives its holdings. *)
Definition suit_symbol (i : nat) : str := [nth i Constants.SUITS 0].

(** * The vocabulary of the specification *)

(** [sub] occurs in [s] as a contiguous run of characters. *)
Definition substring (sub s : str) : Prop :=
  exists pre post, s = pre ++ sub ++ post.

(** The card list in the specification's words: the cards joined by single
    spaces, the ten written [10]; [--] for an empty holding. *)
Definition expand_ten (c : char) : str :=
  if c =? ch "T" then py "10" else [c].

Definition card_list (cards : str) : str :=
  match cards with
  | [] => py "--"
  | _ => join (py " ") (map expand_ten cards)
  end.

(** The rank symbols from the highest to the lowest, each in the cases it may
    be written in; the placeholder comes last. *)
Definition rank_symbols : list str :=
  [ py "Aa"; py "Kk"; py "Qq"; py "Jj"; py "Tt"; py "9"; py "8"; py "7";
    py "6"; py "5"; py "4"; py "3"; py "2"; py "xX" ].

Fixpoint rank_in (table : list str) (c : char) : option nat :=
  match table with
  | [] => None
  | symbols :: rest =>
      if existsb (N.eqb c) symbols then Some 0%nat
      else option_map S (rank_in rest c)
  end.

(** The position of a character in the rank order, if it is a rank symbol. *)
Definition rank (c : char) : option nat := rank_in rank_symbols c.

Definition placeholder_rank : nat := 13.

Definition in_alphabet (c : char) : Prop := exists r, rank c = Some r.

(** [b] may stand directly after [a]: it is a lower rank, or both are the
    placeholder. *)
Definition may_follow (a b : char) : Prop :=
  exists ra rb, rank a = Some ra /\ rank b = Some rb
                /\ ((ra < rb)%nat \/ (ra = placeholder_rank /\ rb = placeholder_rank)).

Definition descending (s : str) : Prop :=
  forall pre a b post, s = pre ++ a :: b :: post -> may_follow a b.

(** Case normalization: ranks uppercased, the placeholder lowercased. *)
Definition normalize_case (c : char) : char :=
  if (c =? ch "x") || (c =? ch "X") then ch "x"
  else if (ch "a" <=? c) && (c <=? ch "z") then c - 32
  else c.

(** How the code treats one character, against the alphabet: a rank symbol is
    normalized to a single character found in [valid_cards] at its rank, and
    any other character leaves something that is not in [valid_cards]. *)
Definition char_ok (c : char) : bool :=
  match rank c with
  | Some r =>
      str_eqb (canonical_char c) [normalize_case c]
      && match find valid_cards [normalize_case c] with
         | Some i => Nat.eqb i r
         | None => false
         end
      && Bool.eqb (Nat.eqb r placeholder_rank) (normalize_case c =? 120)
  | None =>
      existsb (fun d => negb (existsb (N.eqb d) valid_cards)) (canonical_char c)
  end.

(** [chain last s]: every character of [s] is a rank symbol, and each rank
    lies below the one before it ([last] before the first), the placeholder
    being allowed to stay level. *)
Fixpoint chain (last : Z) (s : str) : Prop :=
  match s with
  | [] => True
  | c :: t =>
      exists r, rank c = Some r
                /\ ((last < Z.of_nat r)%Z
                    \/ (last = Z.of_nat r /\ r = placeholder_rank))
                /\ chain (Z.of_nat r) t
  end.

Definition in_alphabetb (c : char) : bool :=
  match rank c with Some _ => true | None => false end.

Definition may_followb (a b : char) : bool :=
  match rank a, rank b with
  | Some ra, Some rb =>
      Nat.ltb ra rb
      || (Nat.eqb ra placeholder_rank && Nat.eqb rb placeholder_rank)
  | _, _ => false
  end.

Fixpoint descendingb (s : str) : bool :=
  match s with
  | a :: (b :: _) as t => may_followb a b && descendingb t
  | _ => true
  end.

(** What the specification rules out in a card string: a character outside
    the rank alphabet, a rank other than the placeholder written twice, or a
    rank that comes after a lower one. *)
Definition foreign_character (s : str) : Prop :=
  exists c, In c s /\ rank c = None.

Definition repeated_rank (s : str) : Prop :=
  exists pre a mid b post r,
    s = pre ++ a :: mid ++ b :: post
    /\ rank a = Some r /\ rank b = Some r /\ r <> placeholder_rank.

Definition out_of_order (s : str) : Prop :=
  exists pre a mid b post ra rb,
    s = pre ++ a :: mid ++ b :: post
    /\ rank a = Some ra /\ rank b = Some rb /\ (rb < ra)%nat.

Definition violation (s : str) : Prop :=
  foreign_character s \/ repeated_rank s \/ out_of_order s.

(** The rank index the scan has reached after [s], starting from [last]. *)
Fixpoint final (last : Z) (s : str) : Z :=
  match s with
  | [] => last
  | c :: t =>
      match rank c with
      | Some r => final (Z.of_nat r) t
      | None => final last t
      end
  end.

(** The first card of [s2] may follow the last card of [s1]. *)
Definition junction (s1 s2 : str) : Prop :=
  forall p a b q, s1 = p ++ [a] -> s2 = b :: q -> may_follow a b.

(** The thirteen ranks, without the placeholder. *)
Definition RANKS : str := py "AKQJT98765432".

(** [held cards v]: the character [v] occurs in [cards]. *)
Definition held (cards : str) (v : char) : bool := existsb (N.eqb v) cards.

(** The contiguous substrings of [SHDC]. *)
Definition accepted_suits : list str :=
  [ []; py "S"; py "H"; py "D"; py "C"; py "SH"; py "HD"; py "DC";
    py "SHD"; py "HDC"; py "SHDC" ].

(** The hand of the module's demonstration, [Hand('ajt8','aqt432','a5','7')]. *)
Definition demo : Hand.t :=
  Hand.mk (SuitHolding.mk (py "S") (py "AJT8"))
          (SuitHolding.mk (py "H") (py "AQT432"))
          (SuitHolding.mk (py "D") (py "A5"))
          (SuitHolding.mk (py "C") (py "7")).

(** * Properties *)

Example demo_hand :
  (h <- Hand.__init__ (PyStr (py "ajt8")) (PyStr (py "aqt432"))
                      (PyStr (py "a5")) (PyStr (py "7")) ;;
   Hand.__format__ h [])
  = Return ([0x2660] ++ py " A J 10 8  " ++ [0x2661] ++ py " A Q 10 4 3 2  "
            ++ [0x2662] ++ py " A 5  " ++ [0x2663] ++ py " 7").
Proof. vm_compute. reflexivity. Qed.

(** ** Literals *)

Lemma SUITS_eq : Constants.SUITS = [83; 72; 68; 67].
Proof. reflexivity. Qed.

Lemma py_x : py "x" = [120].
Proof. reflexivity. Qed.

Lemma py_hH : py "hH" = [104; 72].
Proof. reflexivity. Qed.

Lemma py_Hh : py "Hh" = [72; 104].
Proof. reflexivity. Qed.

(** ** Substring search *)

Lemma startswith_iff (s p : str) :
  startswith s p = true <-> exists post, s = p ++ post.
Proof.
  revert s; induction p as [|a p IH]; intros s; simpl.
  - split; [intros _; now exists s | reflexivity].
  - destruct s as [|c cs].
    + split; [discriminate | intros [post H]; discriminate].
    + rewrite andb_true_iff, N.eqb_eq, IH. split.
      * intros [-> [post ->]]. now exists post.
      * intros [post H]. injection H as <- ->. split; [reflexivity | now exists post].
Qed.

Lemma find_nil (s : str) : find s [] = Some 0%nat.
Proof. destruct s; reflexivity. Qed.

Lemma find_Some (s sub : str) (i : nat) :
  find s sub = Some i ->
  exists pre post, s = pre ++ sub ++ post /\ length pre = i.
Proof.
  revert i; induction s as [|c s IH]; intros i; simpl.
  - destruct (startswith [] sub) eqn:E; [|discriminate].
    intros [= <-]. apply startswith_iff in E as [post E].
    now exists [], post.
  - destruct (startswith (c :: s) sub) eqn:E.
    + intros [= <-]. apply startswith_iff in E as [post E].
      now exists [], post.
    + destruct (find s sub) as [j|]; [|discriminate].
      intros [= <-]. destruct (IH j eq_refl) as (pre & post & -> & Hl).
      exists (c :: pre), post. simpl. now rewrite Hl.
Qed.

Lemma substring_find (s sub : str) :
  substring sub s -> exists i, find s sub = Some i.
Proof.
  intros (pre & post & ->).
  induction pre as [|c pre IH]; simpl.
  - assert (E : startswith (sub ++ post) sub = true)
      by (apply startswith_iff; now exists post).
    destruct (sub ++ post); simpl in *; rewrite E; now exists 0%nat.
  - destruct (startswith (c :: pre ++ sub ++ post) sub); [now exists 0%nat|].
    destruct IH as [i ->]. now exists (S i).
Qed.

Lemma contains_iff (s sub : str) :
  contains s sub = true <-> substring sub s.
Proof.
  unfold contains. split.
  - destruct (find s sub) as [i|] eqn:E; [|discriminate].
    intros _. destruct (find_Some _ _ _ E) as (pre & post & H & _).
    now exists pre, post.
  - intros H. now destruct (substring_find _ _ H) as [i ->].
Qed.

Lemma find_lt (s sub : str) (i : nat) :
  find s sub = Some i -> s <> [] -> (i < length s)%nat.
Proof.
  intros H Hs. destruct sub as [|a sub].
  - rewrite find_nil in H. injection H as <-.
    destruct s; [congruence | simpl; lia].
  - destruct (find_Some _ _ _ H) as (pre & post & -> & <-).
    rewrite !length_app. simpl. lia.
Qed.

Lemma substring_In (sub s : str) (c : char) :
  substring sub s -> In c sub -> In c s.
Proof.
  intros (pre & post & ->) H. apply in_or_app. right.
  apply in_or_app. now left.
Qed.

(** Searching for a single character. *)
Lemma find_char_In (s : str) (c : char) :
  find s [c] <> None <-> In c s.
Proof.
  induction s as [|a s IH]; simpl.
  - split; [congruence | tauto].
  - destruct (N.eqb_spec c a) as [->|Hne]; simpl.
    + split; [now left | discriminate].
    + rewrite <- IH. destruct (find s [c]); simpl.
      * split; [intros _; right; discriminate | discriminate].
      * split; [congruence | intros [H|H]; congruence].
Qed.

(** ** Suit validation *)

Lemma validate_suit_str (s : str) :
  SuitHolding._validate_suit (PyStr s)
  = if contains Constants.SUITS (upper s)
    then Return (upper s)
    else Raise (ValueError SuitHolding.suit_message).
Proof.
  unfold SuitHolding._validate_suit; simpl.
  now destruct (contains Constants.SUITS (upper s)).
Qed.

Lemma validate_suit_inv (o : pyobj) (u : str) :
  SuitHolding._validate_suit o = Return u ->
  exists s, o = PyStr s /\ u = upper s /\ substring u Constants.SUITS.
Proof.
  destruct o as [s|]; [|discriminate].
  rewrite validate_suit_str.
  destruct (contains Constants.SUITS (upper s)) eqn:E; [|discriminate].
  intros [= <-]. exists s. repeat split. now apply contains_iff.
Qed.

Lemma validate_suit_error (o : pyobj) (e : exn) :
  SuitHolding._validate_suit o = Raise e ->
  e = ValueError SuitHolding.suit_message.
Proof.
  destruct o as [s|]; [rewrite validate_suit_str|].
  - destruct (contains Constants.SUITS (upper s)); congruence.
  - cbv [SuitHolding._validate_suit call_upper bind try_except]. congruence.
Qed.

Lemma init_inv (suit cards : pyobj) (h : SuitHolding.t) :
  SuitHolding.__init__ suit cards = Return h ->
  SuitHolding._validate_suit suit = Return (SuitHolding.suit h)
  /\ SuitHolding._validate_cards cards = Return (SuitHolding.cards h).
Proof.
  unfold SuitHolding.__init__.
  destruct (SuitHolding._validate_suit suit) as [u|]; [|discriminate]; simpl.
  destruct (SuitHolding._validate_cards cards) as [c|]; [|discriminate]; simpl.
  now intros [= <-].
Qed.

Lemma init_intro (suit cards : pyobj) (u c : str) :
  SuitHolding._validate_suit suit = Return u ->
  SuitHolding._validate_cards cards = Return c ->
  SuitHolding.__init__ suit cards = Return (SuitHolding.mk u c).
Proof. unfold SuitHolding.__init__. now intros -> ->. Qed.

(** The position of a stored suit in [SUITS] is a valid index of both
    pictograph tables. *)
Lemma suit_position (u : str) :
  substring u Constants.SUITS ->
  exists i p f, find Constants.SUITS u = Some i
                /\ nth_error SuitHolding.SUIT_PIPS i = Some p
                /\ nth_error SuitHolding.SUIT_PIPS_HTML i = Some f.
Proof.
  intros H. destruct (substring_find _ _ H) as [i Hi].
  assert (Hlt : (i < 4)%nat) by (apply (find_lt _ _ _ Hi); discriminate).
  exists i.
  destruct i as [|[|[|[|]]]]; try lia;
    do 2 eexists; (split; [exact Hi | split; reflexivity]).
Qed.

(** ** Rendering *)

Lemma replace_app (a b : str) (old : char) (new : str) :
  replace (a ++ b) old new = replace a old new ++ replace b old new.
Proof. apply flat_map_app. Qed.

Lemma replace_join_chars (cs : str) :
  replace (join (py " ") (chars cs)) (ch "T") (py "10")
  = join (py " ") (map expand_ten cs).
Proof.
  induction cs as [|a [|b cs] IH].
  - reflexivity.
  - simpl. unfold expand_ten. now rewrite app_nil_r.
  - change (replace ([a] ++ py " " ++ join (py " ") (chars (b :: cs)))
                    (ch "T") (py "10")
            = expand_ten a ++ py " " ++ join (py " ") (map expand_ten (b :: cs))).
    rewrite !replace_app, IH. f_equal.
    simpl. unfold expand_ten. now rewrite app_nil_r.
Qed.

Lemma join_expand_truthy (a : char) (cs : str) :
  truthy (join (py " ") (map expand_ten (a :: cs))) = true.
Proof.
  assert (H : exists x y, expand_ten a = x :: y).
  { unfold expand_ten. destruct (a =? ch "T"); now eexists _, _. }
  destruct H as (x & y & H). simpl. rewrite H. now destruct cs.
Qed.

Lemma format_card_list (cs : str) :
  or_else (replace (join (py " ") (chars cs)) (ch "T") (py "10")) (py "--")
  = card_list cs.
Proof.
  rewrite replace_join_chars. destruct cs as [|a cs]; [reflexivity|].
  unfold or_else. now rewrite join_expand_truthy.
Qed.

Lemma format_plain (h : SuitHolding.t) (spec : str) (i : nat) (p : char) :
  find Constants.SUITS (SuitHolding.suit h) = Some i ->
  nth_error SuitHolding.SUIT_PIPS i = Some p ->
  SuitHolding.html_spec spec = false ->
  SuitHolding.__format__ h spec
  = Return ([p] ++ py " " ++ card_list (SuitHolding.cards h)).
Proof.
  intros Hi Hp Hs.
  unfold SuitHolding.__format__, SuitHolding._suit_pip, index, getitem.
  rewrite Hs, Hi; cbn [bind]; rewrite Hp; cbn [bind].
  now rewrite format_card_list.
Qed.

Lemma format_html (h : SuitHolding.t) (spec : str) (i : nat) (f : str) :
  find Constants.SUITS (SuitHolding.suit h) = Some i ->
  nth_error SuitHolding.SUIT_PIPS_HTML i = Some f ->
  SuitHolding.html_spec spec = true ->
  SuitHolding.__format__ h spec
  = Return (f ++ py " " ++ card_list (SuitHolding.cards h)).
Proof.
  intros Hi Hf Hs.
  unfold SuitHolding.__format__, SuitHolding._suit_pip_html, index, getitem.
  rewrite Hs, Hi; cbn [bind]; rewrite Hf; cbn [bind].
  now rewrite format_card_list.
Qed.

(** ** Card validation *)

Lemma valid_cards_eq :
  valid_cards = [65; 75; 81; 74; 84; 57; 56; 55; 54; 53; 52; 51; 50; 120].
Proof. reflexivity. Qed.

Lemma str_eqb_x (d : char) : str_eqb [d] (py "x") = (d =? 120).
Proof.
  unfold str_eqb. rewrite py_x.
  destruct (list_eq_dec N.eq_dec [d] [120]) as [E|E];
    destruct (N.eqb_spec d 120) as [F|F]; try reflexivity.
  - injection E as E. contradiction.
  - subst d. now contradiction E.
Qed.

(** One turn of the loop. *)
Lemma scan_cons (V : str) (last : Z) (d : char) (t : str) :
  SuitHolding.scan V last (d :: t)
  = match find V [d] with
    | None => Raise (ValueError (py "substring not found"))
    | Some i =>
        if (Z.of_nat i <? last)%Z || ((Z.of_nat i =? last)%Z && negb (d =? 120))
        then Raise (ValueError [])
        else SuitHolding.scan V (Z.of_nat i) t
    end.
Proof.
  cbn [SuitHolding.scan]. unfold index.
  destruct (find V [d]); cbn [bind]; [|reflexivity].
  now rewrite str_eqb_x.
Qed.

Lemma scan_raises (V : str) (s : str) (last : Z) (e : exn) :
  SuitHolding.scan V last s = Raise e -> exists m, e = ValueError m.
Proof.
  revert last; induction s as [|d t IH]; intros last; [discriminate|].
  rewrite scan_cons. destruct (find V [d]) as [i|].
  - destruct (_ || _)%bool; [intros [= <-]; now eexists | apply IH].
  - intros [= <-]; now eexists.
Qed.

Lemma validate_cards_str (s : str) :
  SuitHolding._validate_cards (PyStr s)
  = match SuitHolding.scan valid_cards (-1) (canonical s) with
    | Return _ => Return (canonical s)
    | Raise _ => Raise (ValueError SuitHolding.cards_message)
    end.
Proof.
  unfold SuitHolding._validate_cards. cbn [call_upper bind].
  fold valid_cards. fold (canonical s).
  destruct (SuitHolding.scan valid_cards (-1) (canonical s)) as [[]|e] eqn:E;
    [reflexivity|].
  destruct (scan_raises _ _ _ _ E) as [m ->]. reflexivity.
Qed.

Lemma validate_cards_None :
  SuitHolding._validate_cards PyNone
  = Raise (ValueError SuitHolding.cards_message).
Proof. reflexivity. Qed.

Lemma validate_cards_error (o : pyobj) (e : exn) :
  SuitHolding._validate_cards o = Raise e ->
  e = ValueError SuitHolding.cards_message.
Proof.
  destruct o as [s|]; [rewrite validate_cards_str|rewrite validate_cards_None].
  - destruct (SuitHolding.scan _ _ _); congruence.
  - congruence.
Qed.

Lemma validate_cards_inv (o : pyobj) (c : str) :
  SuitHolding._validate_cards o = Return c ->
  exists s, o = PyStr s /\ c = canonical s
            /\ SuitHolding.scan valid_cards (-1) (canonical s) = Return tt.
Proof.
  destruct o as [s|]; [|discriminate]. rewrite validate_cards_str.
  destruct (SuitHolding.scan _ _ _) as [[]|] eqn:E; [|discriminate].
  intros [= <-]. now exists s.
Qed.

(** The scan stops at the first character it rejects: whatever follows that
    character has no part in the outcome. *)
Lemma scan_error_app (V : str) (p rest : str) (last : Z) (e : exn) :
  SuitHolding.scan V last p = Raise e ->
  SuitHolding.scan V last (p ++ rest) = Raise e.
Proof.
  revert last; induction p as [|d p IH]; intros last; [discriminate|].
  rewrite <- app_comm_cons, !scan_cons.
  destruct (find V [d]) as [i|]; [|easy].
  destruct (_ || _)%bool; [easy | apply IH].
Qed.

Lemma scan_first_error (V : str) (s : str) (last : Z) (e : exn) :
  SuitHolding.scan V last s = Raise e ->
  exists p d rest,
    s = p ++ d :: rest
    /\ SuitHolding.scan V last p = Return tt
    /\ SuitHolding.scan V last (p ++ [d]) = Raise e.
Proof.
  revert last; induction s as [|c t IH]; intros last; [discriminate|].
  rewrite scan_cons.
  destruct (find V [c]) as [i|] eqn:Hf.
  - destruct (_ || _)%bool eqn:Ht.
    + intros [= <-]. exists [], c, t. repeat split.
      cbn [app]. now rewrite scan_cons, Hf, Ht.
    + intros H. destruct (IH _ H) as (p & d & rest & -> & Hp & Hd).
      exists (c :: p), d, rest. repeat split.
      * now rewrite scan_cons, Hf, Ht.
      * now rewrite <- app_comm_cons, scan_cons, Hf, Ht.
  - intros [= <-]. exists [], c, t. repeat split.
    cbn [app]. now rewrite scan_cons, Hf.
Qed.

Lemma scan_Return_found (V : str) (s : str) (last : Z) :
  SuitHolding.scan V last s = Return tt -> forall d, In d s -> In d V.
Proof.
  revert last; induction s as [|c t IH]; intros last H d; [easy|].
  rewrite scan_cons in H.
  destruct (find V [c]) as [i|] eqn:Hf; [|discriminate].
  destruct (_ || _)%bool; [discriminate|].
  intros [<-|Hd]; [|now apply (IH _ H)].
  apply find_char_In. congruence.
Qed.

(** ** Characters against the rank alphabet *)

Lemma canonical_cons (c : char) (s : str) :
  canonical (c :: s) = canonical_char c ++ canonical s.
Proof. unfold canonical, upper. simpl. apply replace_app. Qed.

Lemma rank_symbols_eq :
  rank_symbols
  = [ [65; 97]; [75; 107]; [81; 113]; [74; 106]; [84; 116]; [57]; [56]; [55];
      [54]; [53]; [52]; [51]; [50]; [120; 88] ].
Proof. reflexivity. Qed.

Lemma below_128 (P : char -> bool) :
  forallb P (map N.of_nat (seq 0 128)) = true ->
  forall c, c < 128 -> P c = true.
Proof.
  intros H c Hc. rewrite forallb_forall in H. apply H.
  rewrite <- (N2Nat.id c). apply in_map, in_seq. lia.
Qed.

Lemma eqb_ascii_false (c k : char) : 128 <= c -> k < 128 -> (c =? k) = false.
Proof. intros. apply N.eqb_neq. lia. Qed.

Lemma rank_non_ascii (c : char) : 128 <= c -> rank c = None.
Proof.
  intros H. unfold rank. rewrite rank_symbols_eq. cbn [rank_in existsb].
  rewrite !eqb_ascii_false by lia. reflexivity.
Qed.

Lemma char_ok_all (c : char) : char_ok c = true.
Proof.
  destruct (N.lt_ge_cases c 128) as [H|H].
  - revert c H. apply below_128. vm_compute. reflexivity.
  - unfold char_ok. rewrite (rank_non_ascii c H).
    unfold canonical_char, upper_char.
    change (ch "a") with 97. change (ch "z") with 122.
    replace ((97 <=? c) && (c <=? 122)) with false
      by (symmetry; apply andb_false_iff; right; apply N.leb_gt; lia).
    replace (c <? 128) with false by (symmetry; apply N.ltb_ge; lia).
    repeat match goal with
           | |- context [if c =? ?k then _ else _] =>
               destruct (N.eqb_spec c k) as [->|?]; [vm_compute; reflexivity|]
           end.
    cbn [replace flat_map app existsb].
    change (ch "X") with 88.
    rewrite (eqb_ascii_false c 88) by lia. cbn [app existsb].
    rewrite valid_cards_eq. cbn [existsb].
    rewrite !eqb_ascii_false by lia. reflexivity.
Qed.

Lemma str_eqb_eq (a b : str) : str_eqb a b = true -> a = b.
Proof. unfold str_eqb. now destruct (list_eq_dec N.eq_dec a b). Qed.

Lemma existsb_eqb_In (d : char) (l : str) :
  existsb (N.eqb d) l = true <-> In d l.
Proof.
  rewrite existsb_exists. split.
  - intros (x & Hx & E). apply N.eqb_eq in E. now subst.
  - intros H. exists d. split; [easy | apply N.eqb_refl].
Qed.

Lemma rank_canonical (c : char) (r : nat) :
  rank c = Some r ->
  canonical_char c = [normalize_case c]
  /\ find valid_cards [normalize_case c] = Some r
  /\ (r = placeholder_rank <-> normalize_case c = 120).
Proof.
  intros Hr. pose proof (char_ok_all c) as H. unfold char_ok in H.
  rewrite Hr in H. apply andb_true_iff in H as [H H3].
  apply andb_true_iff in H as [H1 H2].
  split; [now apply str_eqb_eq|]. split.
  - destruct (find valid_cards [normalize_case c]) as [i|]; [|discriminate].
    apply Nat.eqb_eq in H2. now subst.
  - apply Bool.eqb_prop in H3. rewrite <- Nat.eqb_eq, <- N.eqb_eq, H3. tauto.
Qed.

Lemma unranked_canonical (c : char) :
  rank c = None -> exists d, In d (canonical_char c) /\ ~ In d valid_cards.
Proof.
  intros Hr. pose proof (char_ok_all c) as H. unfold char_ok in H.
  rewrite Hr in H. apply existsb_exists in H as (d & Hd & H).
  exists d. split; [easy|]. rewrite <- existsb_eqb_In.
  now destruct (existsb (N.eqb d) valid_cards).
Qed.

(** ** The scan against the rank order *)

Lemma step_test (i : nat) (last : Z) (d : char) :
  (i = placeholder_rank <-> d = 120) ->
  ((Z.of_nat i <? last)%Z || ((Z.of_nat i =? last)%Z && negb (d =? 120)) = false
   <-> ((last < Z.of_nat i)%Z \/ (last = Z.of_nat i /\ i = placeholder_rank))).
Proof.
  intros Hx. rewrite orb_false_iff, andb_false_iff, negb_false_iff.
  rewrite Z.ltb_ge, Z.eqb_neq, N.eqb_eq. split.
  - intros [H1 [H2|H2]]; [lia|].
    destruct (Z.eq_dec last (Z.of_nat i)); [right; tauto | left; lia].
  - intros [H|[H1 H2]]; (split; [lia|]); [left; lia | right; tauto].
Qed.

Lemma scan_chain (s : str) (last : Z) :
  SuitHolding.scan valid_cards last (canonical s) = Return tt <-> chain last s.
Proof.
  revert last; induction s as [|c t IH]; intros last; [easy|].
  rewrite canonical_cons. cbn [chain].
  destruct (rank c) as [r|] eqn:Hr.
  - destruct (rank_canonical c r Hr) as (-> & Hf & Hx).
    cbn [app]. rewrite scan_cons, Hf.
    destruct (_ || _)%bool eqn:Ht.
    + split; [discriminate|]. intros (r' & [= <-] & Hstep & _).
      apply (step_test r last _ Hx) in Hstep. congruence.
    + apply (step_test r last _ Hx) in Ht. rewrite IH. split.
      * intros H. now exists r.
      * now intros (r' & [= <-] & _ & H).
  - split; [|now intros (r & [=] & _)].
    intros H. exfalso.
    destruct (unranked_canonical c Hr) as (d & Hd & Hn). apply Hn.
    apply (scan_Return_found _ _ _ H). apply in_or_app. now left.
Qed.

Lemma chain_alphabet (s : str) (last : Z) :
  chain last s -> Forall in_alphabet s.
Proof.
  revert last; induction s as [|c t IH]; intros last; [constructor|].
  intros (r & Hr & _ & H). constructor; [now exists r | now apply (IH _ H)].
Qed.

Lemma chain_descending (s : str) (last : Z) : chain last s -> descending s.
Proof.
  revert last; induction s as [|c t IH]; intros last H pre a b post E.
  - now destruct pre.
  - destruct H as (r & Hr & _ & H). destruct pre as [|x pre].
    + injection E as <- ->. destruct H as (rb & Hb & Hstep & _).
      exists r, rb. repeat split; try easy.
      destruct Hstep as [Hlt|[Heq Hp]]; [left; lia | right; split; [|easy]].
      rewrite <- Hp. lia.
    + injection E as <- ->. now apply (IH _ H pre a b post).
Qed.

Lemma descending_tail (c : char) (t : str) :
  descending (c :: t) -> descending t.
Proof. intros H pre a b post ->. now apply (H (c :: pre) a b post). Qed.

Lemma descending_chain (s : str) (last : Z) :
  Forall in_alphabet s -> descending s ->
  (forall c t r, s = c :: t -> rank c = Some r ->
                 (last < Z.of_nat r)%Z
                 \/ (last = Z.of_nat r /\ r = placeholder_rank)) ->
  chain last s.
Proof.
  revert last; induction s as [|c t IH]; intros last Ha Hd Hh; [easy|].
  inversion Ha as [|? ? [r Hr] Ht]; subst.
  exists r. split; [easy|]. split; [now apply (Hh c t)|].
  apply IH; [easy | now apply descending_tail in Hd |].
  intros b t' rb -> Hb.
  destruct (Hd [] c b t' eq_refl) as (ra' & rb' & Ha' & Hb' & Hstep).
  rewrite Hr in Ha'. rewrite Hb in Hb'. injection Ha' as <-. injection Hb' as <-.
  destruct Hstep as [Hlt|[-> ->]]; [left; lia | now right].
Qed.

(** The code's scan accepts exactly the strings of rank symbols that descend,
    placeholders repeating. *)
Lemma scan_accepts_iff (s : str) :
  SuitHolding.scan valid_cards (-1) (canonical s) = Return tt
  <-> Forall in_alphabet s /\ descending s.
Proof.
  rewrite scan_chain. split.
  - intros H. split; [now apply chain_alphabet in H | now apply chain_descending in H].
  - intros [Ha Hd]. apply descending_chain; try easy. intros; left; lia.
Qed.

Lemma alphabet_canonical (s : str) :
  Forall in_alphabet s -> canonical s = map normalize_case s.
Proof.
  induction 1 as [|c t [r Hr] _ IH]; [reflexivity|].
  rewrite canonical_cons, IH.
  now destruct (rank_canonical c r Hr) as (-> & _).
Qed.

(** Along an accepted string no rank comes back: later ranks are lower, or are
    the placeholder again. *)
Lemma chain_bound (s : str) (last : Z) :
  chain last s ->
  forall c, In c s ->
            exists r, rank c = Some r /\ (last <= Z.of_nat r)%Z
                      /\ (last = Z.of_nat r -> r = placeholder_rank).
Proof.
  revert last; induction s as [|a t IH]; intros last H c Hc; [easy|].
  destruct H as (ra & Ha & Hstep & H). destruct Hc as [<-|Hc].
  - exists ra. split; [easy|]. destruct Hstep as [?|[? ?]]; split; intros; lia || easy.
  - destruct (IH _ H c Hc) as (r & Hr & Hle & Heq).
    exists r. split; [easy|].
    destruct Hstep as [?|[-> ->]]; split; intros; lia.
Qed.

Lemma chain_app_inv (p q : str) (last : Z) :
  chain last (p ++ q) -> exists last', chain last' q.
Proof.
  revert last; induction p as [|a p IH]; intros last H; [now exists last|].
  destruct H as (r & _ & _ & H). now apply (IH _ H).
Qed.

Lemma chain_pair (pre mid post : str) (a b : char) (last : Z) :
  chain last (pre ++ a :: mid ++ b :: post) ->
  exists ra rb, rank a = Some ra /\ rank b = Some rb
                /\ (ra <= rb)%nat /\ (ra = rb -> ra = placeholder_rank).
Proof.
  intros H. apply chain_app_inv in H as [l H].
  destruct H as (ra & Ha & _ & H).
  destruct (chain_bound _ _ H b) as (rb & Hb & Hle & Heq).
  { apply in_or_app. right. now left. }
  exists ra, rb. repeat split; try easy; [lia|].
  intros E. subst rb. apply Heq. reflexivity.
Qed.

(** ** Deciding the specification's predicates *)

Lemma in_alphabetb_iff (c : char) : in_alphabetb c = true <-> in_alphabet c.
Proof.
  unfold in_alphabetb, in_alphabet. destruct (rank c) as [r|].
  - split; [now exists r | easy].
  - split; [discriminate | now intros [r H]].
Qed.

Lemma alphabetb_Forall (s : str) :
  forallb in_alphabetb s = true -> Forall in_alphabet s.
Proof.
  rewrite forallb_forall, Forall_forall. intros H c Hc.
  now apply in_alphabetb_iff, H.
Qed.

Lemma may_followb_iff (a b : char) : may_followb a b = true <-> may_follow a b.
Proof.
  unfold may_followb, may_follow. split.
  - destruct (rank a) as [ra|], (rank b) as [rb|]; try discriminate.
    rewrite orb_true_iff, andb_true_iff, Nat.ltb_lt, !Nat.eqb_eq.
    intros H. now exists ra, rb.
  - intros (ra & rb & -> & -> & H).
    now rewrite orb_true_iff, andb_true_iff, Nat.ltb_lt, !Nat.eqb_eq.
Qed.

Lemma descendingb_iff (s : str) : descendingb s = true <-> descending s.
Proof.
  induction s as [|a [|b t] IH].
  - split; [intros _ [|? ?] ? ? ? ?; discriminate | reflexivity].
  - split; [intros _ [|? [|? ?]] ? ? ? ?; discriminate | reflexivity].
  - cbn [descendingb]. rewrite andb_true_iff, may_followb_iff, IH. split.
    + intros [H1 H2] [|x pre] a' b' post E.
      * now injection E as <- <- _.
      * injection E as <- E. now apply (H2 pre a' b' post).
    + intros H. split; [now apply (H [] a b t) | now apply descending_tail in H].
Qed.

(** ** SuitHolding: construction *)

Lemma upper_fixed (u : str) :
  (forall c, In c u -> upper_char c = [c]) -> upper u = u.
Proof.
  induction u as [|c u IH]; intros H; [reflexivity|].
  unfold upper in *. simpl. rewrite (H c) by now left.
  simpl. f_equal. apply IH. intros d Hd. apply H. now right.
Qed.

Lemma canonical_fixed (u : str) :
  (forall c, In c u -> canonical_char c = [c]) -> canonical u = u.
Proof.
  induction u as [|c u IH]; intros H; [reflexivity|].
  rewrite canonical_cons, (H c) by now left.
  simpl. f_equal. apply IH. intros d Hd. apply H. now right.
Qed.

Lemma suit_upper_fixed (u : str) :
  substring u Constants.SUITS -> upper u = u.
Proof.
  intros H. apply upper_fixed. intros c Hc.
  apply (substring_In _ _ _ H) in Hc. rewrite SUITS_eq in Hc.
  repeat (destruct Hc as [<-|Hc]; [reflexivity|]). easy.
Qed.

Lemma cards_canonical_fixed (c : str) :
  (forall d, In d c -> In d valid_cards) -> canonical c = c.
Proof.
  intros H. apply canonical_fixed. intros d Hd.
  apply H in Hd. rewrite valid_cards_eq in Hd.
  repeat (destruct Hd as [<-|Hd]; [reflexivity|]). easy.
Qed.

(** The part of C1 that the code meets: a suit whose uppercased form is one of
    the four symbols is accepted and stored in that form. *)
Lemma canonical_suit_accepted (s : str) (c : char) :
  upper s = [c] -> In c Constants.SUITS ->
  SuitHolding._validate_suit (PyStr s) = Return [c].
Proof.
  intros Hu Hc. rewrite validate_suit_str, Hu.
  rewrite SUITS_eq in *.
  repeat (destruct Hc as [<-|Hc]; [reflexivity|]). easy.
Qed.

(** C1 (as the code behaves): construction does not fail with the
    invalid-suit error for every suit outside the four symbols S, H, D, C.
    The two-character suit [sh] and the empty suit are accepted, and the
    stored suit is then [SH], and the empty string, neither of them one of
    the four one-character symbols. *)
Theorem C1_suit_outside_symbols_accepted :
  SuitHolding.__init__ (PyStr (py "sh")) (PyStr (py "AK"))
  = Return (SuitHolding.mk (py "SH") (py "AK"))
  /\ SuitHolding.__init__ (PyStr []) (PyStr [])
     = Return (SuitHolding.mk [] [])
  /\ SuitHolding._validate_suit (PyStr (py "z"))
     = Raise (ValueError (py "Suit must be one of SHDC")).
Proof. repeat split; vm_compute; reflexivity. Qed.

(** C2: a card string made only of rank symbols (in either case) whose ranks
    descend strictly, the placeholder being free to repeat, is accepted with
    any accepted suit, and the stored cards are the input with ranks
    uppercased and placeholders lowercased. *)
Theorem C2_descending_cards_accepted (suit : pyobj) (u s : str) :
  SuitHolding._validate_suit suit = Return u ->
  Forall in_alphabet s ->
  descending s ->
  exists h, SuitHolding.__init__ suit (PyStr s) = Return h
            /\ SuitHolding.suit h = u
            /\ SuitHolding.cards h = map normalize_case s.
Proof.
  intros Hu Ha Hd. exists (SuitHolding.mk u (map normalize_case s)).
  split; [|easy]. apply init_intro; [easy|].
  rewrite validate_cards_str.
  rewrite (proj2 (scan_accepts_iff s) (conj Ha Hd)).
  now rewrite alphabet_canonical.
Qed.

Lemma C2_witness :
  exists h, SuitHolding.__init__ (PyStr (py "h")) (PyStr (py "aKqjT92xXx"))
            = Return h
            /\ SuitHolding.suit h = py "H"
            /\ SuitHolding.cards h = map normalize_case (py "aKqjT92xXx").
Proof.
  apply (C2_descending_cards_accepted (PyStr (py "h")) (py "H") (py "aKqjT92xXx")).
  - vm_compute. reflexivity.
  - apply alphabetb_Forall. vm_compute. reflexivity.
  - apply descendingb_iff. vm_compute. reflexivity.
Defined.

Example normalize_case_example : map normalize_case (py "aKqjT92xXx") = py "AKQJT92xxx".
Proof. vm_compute. reflexivity. Qed.

Lemma violation_not_chain (s : str) : violation s -> ~ chain (-1) s.
Proof.
  intros [(c & Hc & Hr)|[H|H]] Hch.
  - destruct (chain_bound _ _ Hch c Hc) as (r & Hr' & _). congruence.
  - destruct H as (pre & a & mid & b & post & r & -> & Ha & Hb & Hn).
    destruct (chain_pair _ _ _ _ _ _ Hch) as (ra & rb & Ha' & Hb' & _ & Heq).
    rewrite Ha in Ha'. rewrite Hb in Hb'.
    injection Ha' as <-. injection Hb' as <-. now apply Hn, Heq.
  - destruct H as (pre & a & mid & b & post & ra & rb & -> & Ha & Hb & Hlt).
    destruct (chain_pair _ _ _ _ _ _ Hch) as (ra' & rb' & Ha' & Hb' & Hle & _).
    rewrite Ha in Ha'. rewrite Hb in Hb'.
    injection Ha' as <-. injection Hb' as <-. lia.
Qed.

(** C3: a card string with a character outside the rank alphabet, a repeated
    rank other than the placeholder, or a rank out of descending order is
    rejected with the invalid-cards error, by card validation and so by the
    construction of a holding with any accepted suit.  The error is raised at
    the first character the left-to-right scan rejects: the characters before
    it pass, and whatever stands after it, the same exception comes out. *)
Theorem C3_invalid_cards_rejected (s : str) :
  violation s ->
  SuitHolding._validate_cards (PyStr s)
  = Raise (ValueError SuitHolding.cards_message)
  /\ (forall suit u,
        SuitHolding._validate_suit suit = Return u ->
        SuitHolding.__init__ suit (PyStr s)
        = Raise (ValueError SuitHolding.cards_message))
  /\ (forall suit, exists e, SuitHolding.__init__ suit (PyStr s) = Raise e)
  /\ exists p d rest e,
       canonical s = p ++ d :: rest
       /\ SuitHolding.scan valid_cards (-1) p = Return tt
       /\ SuitHolding.scan valid_cards (-1) (p ++ [d]) = Raise e
       /\ forall rest',
            SuitHolding.scan valid_cards (-1) (p ++ d :: rest') = Raise e.
Proof.
  intros Hv. apply violation_not_chain in Hv. rewrite <- scan_chain in Hv.
  assert (Hc : SuitHolding._validate_cards (PyStr s)
               = Raise (ValueError SuitHolding.cards_message)).
  { rewrite validate_cards_str.
    now destruct (SuitHolding.scan valid_cards (-1) (canonical s)) as [[]|]. }
  split; [exact Hc|]. split; [|split].
  - intros suit u Hu. unfold SuitHolding.__init__. now rewrite Hu, Hc.
  - intros suit. unfold SuitHolding.__init__.
    destruct (SuitHolding._validate_suit suit); cbn [bind];
      [rewrite Hc|]; now eexists.
  - destruct (SuitHolding.scan valid_cards (-1) (canonical s)) as [[]|e] eqn:E;
      [easy|].
    destruct (scan_first_error _ _ _ _ E) as (p & d & rest & Hs & Hp & Hd).
    exists p, d, rest, e. repeat split; try easy.
    intros rest'. change (d :: rest') with ([d] ++ rest').
    rewrite app_assoc. now apply scan_error_app.
Qed.

Lemma C3_witness :
  repeated_rank (py "AkQa?")
  /\ SuitHolding._validate_cards (PyStr (py "AkQa?"))
     = Raise (ValueError SuitHolding.cards_message)
  /\ SuitHolding.__init__ (PyStr (py "c")) (PyStr (py "AkQa?"))
     = Raise (ValueError SuitHolding.cards_message).
Proof.
  assert (R : repeated_rank (py "AkQa?")).
  { exists [], (ch "A"), (py "kQ"), (ch "a"), (py "?"), 0%nat.
    repeat split; try reflexivity. discriminate. }
  destruct (C3_invalid_cards_rejected (py "AkQa?") (or_intror (or_introl R)))
    as (Hc & Hi & _).
  split; [exact R|]. split; [exact Hc|].
  apply (Hi (PyStr (py "c")) (py "C")). vm_compute. reflexivity.
Defined.

(** The scenarios of the specification. *)
Example scenario_placeholder_repeats :
  SuitHolding.__init__ (PyStr (py "H")) (PyStr (py "xx"))
  = Return (SuitHolding.mk (py "H") (py "xx")).
Proof. vm_compute. reflexivity. Qed.

Example scenario_repeated_ace :
  SuitHolding.__init__ (PyStr (py "d")) (PyStr (py "AA"))
  = Raise (ValueError (py "Cards must consist of AKQJT98765432 or x in proper order")).
Proof. vm_compute. reflexivity. Qed.

Example scenario_ascending :
  SuitHolding.__init__ (PyStr (py "c")) (PyStr (py "2A"))
  = Raise (ValueError (py "Cards must consist of AKQJT98765432 or x in proper order")).
Proof. vm_compute. reflexivity. Qed.

Example scenario_not_a_string :
  SuitHolding.__init__ PyNone (PyStr (py "AK"))
  = Raise (ValueError (py "Suit must be one of SHDC"))
  /\ SuitHolding.__init__ (PyStr (py "s")) PyNone
     = Raise (ValueError (py "Cards must consist of AKQJT98765432 or x in proper order")).
Proof. split; vm_compute; reflexivity. Qed.

(** U+017F, whose uppercase form is [S], is taken for spades. *)
Example long_s_suit :
  SuitHolding._validate_suit (PyStr [0x17f]) = Return (py "S").
Proof. vm_compute. reflexivity. Qed.

(** C4: building a holding again from the suit and cards of a constructed
    holding succeeds and yields the same cards (and the same suit). *)
Theorem C4_reconstruction_idempotent (suit cards : pyobj) (h : SuitHolding.t) :
  SuitHolding.__init__ suit cards = Return h ->
  exists h',
    SuitHolding.__init__ (PyStr (SuitHolding.suit h)) (PyStr (SuitHolding.cards h))
    = Return h'
    /\ SuitHolding.cards h' = SuitHolding.cards h
    /\ SuitHolding.suit h' = SuitHolding.suit h.
Proof.
  intros H. apply init_inv in H as [Hu Hc].
  apply validate_suit_inv in Hu as (s & _ & _ & Hsub).
  apply validate_cards_inv in Hc as (s' & _ & Hcan & Hscan).
  rewrite <- Hcan in Hscan.
  exists (SuitHolding.mk (SuitHolding.suit h) (SuitHolding.cards h)).
  split; [|easy]. apply init_intro.
  - rewrite validate_suit_str, (suit_upper_fixed _ Hsub).
    now rewrite (proj2 (contains_iff _ _) Hsub).
  - rewrite validate_cards_str.
    rewrite (cards_canonical_fixed (SuitHolding.cards h))
      by apply (scan_Return_found _ _ _ Hscan).
    now rewrite Hscan.
Qed.

Lemma C4_witness :
  exists h',
    SuitHolding.__init__ (PyStr (py "D")) (PyStr (py "KT9xx")) = Return h'
    /\ SuitHolding.cards h' = py "KT9xx"
    /\ SuitHolding.suit h' = py "D".
Proof.
  apply (C4_reconstruction_idempotent
           (PyStr (py "d")) (PyStr (py "kt9Xx"))
           (SuitHolding.mk (py "D") (py "KT9xx"))).
  vm_compute. reflexivity.
Defined.

(** ** SuitHolding: formatting *)

Lemma constructed_suit_position (suit cards : pyobj) (h : SuitHolding.t) :
  SuitHolding.__init__ suit cards = Return h ->
  exists i p f, find Constants.SUITS (SuitHolding.suit h) = Some i
                /\ nth_error SuitHolding.SUIT_PIPS i = Some p
                /\ nth_error SuitHolding.SUIT_PIPS_HTML i = Some f.
Proof.
  intros H. apply init_inv in H as [Hu _].
  apply validate_suit_inv in Hu as (s & _ & _ & Hsub).
  now apply suit_position.
Qed.

Lemma html_spec_nil : SuitHolding.html_spec [] = false.
Proof. reflexivity. Qed.

Lemma html_spec_char (c : char) :
  SuitHolding.html_spec [c] = (c =? ch "h") || (c =? ch "H").
Proof.
  unfold SuitHolding.html_spec, contains. rewrite py_hH.
  change (ch "h") with 104. change (ch "H") with 72.
  cbn [truthy andb find startswith option_map].
  now destruct (c =? 104), (c =? 72).
Qed.

(** C5: in plain mode a constructed holding is rendered as the pictograph
    found in the four-element table at the position of its suit, a space, and
    the cards joined by single spaces with T written 10, or [--] when there
    are no cards.  SuitHolding('s','AKQJT') comes out as the spade pictograph
    followed by [ A K Q J 10]. *)
Theorem C5_plain_format :
  (forall (suit cards : pyobj) (h : SuitHolding.t) (spec : str),
      SuitHolding.__init__ suit cards = Return h ->
      SuitHolding.html_spec spec = false ->
      exists i p,
        find Constants.SUITS (SuitHolding.suit h) = Some i
        /\ nth_error SuitHolding.SUIT_PIPS i = Some p
        /\ length SuitHolding.SUIT_PIPS = 4%nat
        /\ SuitHolding.__format__ h spec
           = Return ([p] ++ py " " ++ card_list (SuitHolding.cards h)))
  /\ card_list [] = py "--"
  /\ (h <- SuitHolding.__init__ (PyStr (py "s")) (PyStr (py "AKQJT")) ;;
      SuitHolding.__format__ h [])
     = Return ([0x2660] ++ py " A K Q J 10").
Proof.
  split; [|split; vm_compute; reflexivity].
  intros suit cards h spec H Hs.
  destruct (constructed_suit_position _ _ _ H) as (i & p & f & Hi & Hp & _).
  exists i, p. repeat split; try easy. now apply (format_plain _ _ i).
Qed.

Lemma C5_witness :
  exists i p,
    find Constants.SUITS (py "C") = Some i
    /\ nth_error SuitHolding.SUIT_PIPS i = Some p
    /\ length SuitHolding.SUIT_PIPS = 4%nat
    /\ SuitHolding.__format__ (SuitHolding.mk (py "C") (py "T9x")) (py "p")
       = Return ([p] ++ py " " ++ card_list (py "T9x")).
Proof.
  apply (proj1 C5_plain_format (PyStr (py "c")) (PyStr (py "t9X"))
               (SuitHolding.mk (py "C") (py "T9x")) (py "p")).
  - vm_compute. reflexivity.
  - vm_compute. reflexivity.
Defined.

(** C6: the one-character directives [h] and [H] select HTML mode, where the
    markup fragment of the parallel table stands in place of the pictograph
    and the card list is the one of plain mode; no directive, or any other
    one-character directive, gives the plain rendering.  In the table the
    hearts and diamonds fragments are wrapped in a red [span]. *)
Theorem C6_html_directive (suit cards : pyobj) (h : SuitHolding.t) :
  SuitHolding.__init__ suit cards = Return h ->
  exists i p f,
    find Constants.SUITS (SuitHolding.suit h) = Some i
    /\ nth_error SuitHolding.SUIT_PIPS i = Some p
    /\ nth_error SuitHolding.SUIT_PIPS_HTML i = Some f
    /\ (forall spec,
          spec = py "h" \/ spec = py "H" ->
          SuitHolding.__format__ h spec
          = Return (f ++ py " " ++ card_list (SuitHolding.cards h)))
    /\ (forall spec,
          spec = [] \/ (exists c, spec = [c] /\ c <> ch "h" /\ c <> ch "H") ->
          SuitHolding.__format__ h spec
          = Return ([p] ++ py " " ++ card_list (SuitHolding.cards h)))
    /\ SuitHolding.SUIT_PIPS_HTML
       = [ py "&#9824;";
           py "<span style=" ++ [34] ++ py "color: rgb(192, 22, 22);" ++ [34]
              ++ py ">&#9829;</span>";
           py "<span style=" ++ [34] ++ py "color: rgb(192, 22, 22);" ++ [34]
              ++ py ">&#9830;</span>";
           py "&#9827;" ].
Proof.
  intros H.
  destruct (constructed_suit_position _ _ _ H) as (i & p & f & Hi & Hp & Hf).
  exists i, p, f. repeat split; try easy.
  - intros spec [->| ->]; now apply (format_html _ _ i).
  - intros spec Hs. apply (format_plain _ _ i); try easy.
    destruct Hs as [->|(c & -> & H1 & H2)]; [reflexivity|].
    rewrite html_spec_char.
    apply N.eqb_neq in H1, H2. now rewrite H1, H2.
Qed.

Lemma C6_witness :
  exists i p f,
    find Constants.SUITS (py "H") = Some i
    /\ nth_error SuitHolding.SUIT_PIPS i = Some p
    /\ nth_error SuitHolding.SUIT_PIPS_HTML i = Some f
    /\ (forall spec,
          spec = py "h" \/ spec = py "H" ->
          SuitHolding.__format__ (SuitHolding.mk (py "H") (py "AT")) spec
          = Return (f ++ py " " ++ card_list (py "AT")))
    /\ (forall spec,
          spec = [] \/ (exists c, spec = [c] /\ c <> ch "h" /\ c <> ch "H") ->
          SuitHolding.__format__ (SuitHolding.mk (py "H") (py "AT")) spec
          = Return ([p] ++ py " " ++ card_list (py "AT")))
    /\ SuitHolding.SUIT_PIPS_HTML
       = [ py "&#9824;";
           py "<span style=" ++ [34] ++ py "color: rgb(192, 22, 22);" ++ [34]
              ++ py ">&#9829;</span>";
           py "<span style=" ++ [34] ++ py "color: rgb(192, 22, 22);" ++ [34]
              ++ py ">&#9830;</span>";
           py "&#9827;" ].
Proof.
  apply (C6_html_directive (PyStr (py "h")) (PyStr (py "at"))
                           (SuitHolding.mk (py "H") (py "AT"))).
  vm_compute. reflexivity.
Defined.

Example html_format_hearts :
  SuitHolding.__format__ (SuitHolding.mk (py "H") (py "AT")) (py "H")
  = Return (py "<span style=" ++ [34] ++ py "color: rgb(192, 22, 22);" ++ [34]
            ++ py ">&#9829;</span> A 10").
Proof. vm_compute. reflexivity. Qed.

(** C9: a suit whose uppercased form is any contiguous substring of [SHDC],
    one of the four symbols or not, is accepted and stored in that uppercased
    form; the empty string and [sh] and [dc] are such suits.  A holding with
    the empty suit is rendered with the spades pictograph. *)
Theorem C9_suit_substrings_accepted :
  (forall (s : str) (cards : pyobj) (c : str),
      substring (upper s) Constants.SUITS ->
      SuitHolding._validate_cards cards = Return c ->
      exists h,
        SuitHolding.__init__ (PyStr s) cards = Return h
        /\ SuitHolding.suit h = upper s
        /\ SuitHolding.cards h = c
        /\ (s = [] ->
            SuitHolding.__format__ h []
            = Return ([0x2660] ++ py " " ++ card_list c)))
  /\ substring (upper []) Constants.SUITS
  /\ substring (upper (py "sh")) Constants.SUITS
  /\ substring (upper (py "dc")) Constants.SUITS.
Proof.
  split.
  - intros s cards c Hsub Hc. exists (SuitHolding.mk (upper s) c).
    split; [|repeat split].
    + apply init_intro; [|easy].
      now rewrite validate_suit_str, (proj2 (contains_iff _ _) Hsub).
    + intros ->.
      now apply (format_plain (SuitHolding.mk (upper []) c) [] 0%nat 0x2660).
  - repeat split; apply contains_iff; vm_compute; reflexivity.
Qed.

Lemma C9_witness :
  exists h,
    SuitHolding.__init__ (PyStr (py "dC")) (PyStr (py "q5")) = Return h
    /\ SuitHolding.suit h = upper (py "dC")
    /\ SuitHolding.cards h = py "Q5"
    /\ (py "dC" = [] ->
        SuitHolding.__format__ h []
        = Return ([0x2660] ++ py " " ++ card_list (py "Q5"))).
Proof.
  apply (proj1 C9_suit_substrings_accepted (py "dC") (PyStr (py "q5")) (py "Q5")).
  - exists (py "SH"), []. vm_compute. reflexivity.
  - vm_compute. reflexivity.
Defined.

Example empty_suit_format :
  (h <- SuitHolding.__init__ (PyStr []) (PyStr (py "k2")) ;;
   SuitHolding.__format__ h [])
  = Return ([0x2660] ++ py " K 2").
Proof. vm_compute. reflexivity. Qed.

(** ** Hand *)

Lemma holding_eq (i : nat) (cards : pyobj) :
  (i < 4)%nat ->
  Hand.holding i cards = SuitHolding.__init__ (PyStr (suit_symbol i)) cards.
Proof.
  intros H. destruct i as [|[|[|[|]]]]; try lia; reflexivity.
Qed.

Lemma fixed_suit_init (i : nat) (cards : pyobj) :
  (i < 4)%nat ->
  SuitHolding.__init__ (PyStr (suit_symbol i)) cards
  = match SuitHolding._validate_cards cards with
    | Return x => Return (SuitHolding.mk (suit_symbol i) x)
    | Raise e => Raise e
    end.
Proof.
  intros H. unfold SuitHolding.__init__.
  assert (E : SuitHolding._validate_suit (PyStr (suit_symbol i))
              = Return (suit_symbol i))
    by (destruct i as [|[|[|[|]]]]; try lia; reflexivity).
  rewrite E. cbn [bind].
  now destruct (SuitHolding._validate_cards cards).
Qed.

Lemma fixed_suit_init_error (i : nat) (cards : pyobj) (e : exn) :
  (i < 4)%nat ->
  SuitHolding.__init__ (PyStr (suit_symbol i)) cards = Raise e ->
  e = ValueError SuitHolding.cards_message.
Proof.
  intros H. rewrite (fixed_suit_init i cards H).
  destruct (SuitHolding._validate_cards cards) eqn:E; [discriminate|].
  intros [= <-]. now apply validate_cards_error in E.
Qed.

(** C8: a hand is constructed exactly when each of the four card strings, on
    its own, passes the construction of a holding in its fixed suit (S, H, D,
    C in that order), which it does exactly when it passes card validation;
    nothing relates one suit's cards to another's.  When the construction
    fails, no hand results and the exception is the invalid-cards error of the
    first holding, in suit order, that fails. *)
Theorem C8_hand_construction (spades hearts diamonds clubs : pyobj) :
  let hS := SuitHolding.__init__ (PyStr (py "S")) spades in
  let hH := SuitHolding.__init__ (PyStr (py "H")) hearts in
  let hD := SuitHolding.__init__ (PyStr (py "D")) diamonds in
  let hC := SuitHolding.__init__ (PyStr (py "C")) clubs in
  (forall hand,
      Hand.__init__ spades hearts diamonds clubs = Return hand
      <-> exists s h d c,
          hS = Return s /\ hH = Return h /\ hD = Return d /\ hC = Return c
          /\ hand = Hand.mk s h d c)
  /\ (forall s, hS = Return s
                <-> exists x, SuitHolding._validate_cards spades = Return x
                              /\ s = SuitHolding.mk (py "S") x)
  /\ (forall h, hH = Return h
                <-> exists x, SuitHolding._validate_cards hearts = Return x
                              /\ h = SuitHolding.mk (py "H") x)
  /\ (forall d, hD = Return d
                <-> exists x, SuitHolding._validate_cards diamonds = Return x
                              /\ d = SuitHolding.mk (py "D") x)
  /\ (forall c, hC = Return c
                <-> exists x, SuitHolding._validate_cards clubs = Return x
                              /\ c = SuitHolding.mk (py "C") x)
  /\ (forall e,
        Hand.__init__ spades hearts diamonds clubs = Raise e ->
        e = ValueError SuitHolding.cards_message
        /\ (hS = Raise e
            \/ (exists s, hS = Return s /\ hH = Raise e)
            \/ (exists s h, hS = Return s /\ hH = Return h /\ hD = Raise e)
            \/ (exists s h d,
                   hS = Return s /\ hH = Return h /\ hD = Return d
                   /\ hC = Raise e))).
Proof.
  intros hS hH hD hC.
  assert (HS : Hand.holding 0 spades = hS) by reflexivity.
  assert (HH : Hand.holding 1 hearts = hH) by reflexivity.
  assert (HD : Hand.holding 2 diamonds = hD) by reflexivity.
  assert (HC : Hand.holding 3 clubs = hC) by reflexivity.
  assert (Hone : forall (i : nat) (o : pyobj) (t : SuitHolding.t),
             (i < 4)%nat ->
             SuitHolding.__init__ (PyStr (suit_symbol i)) o = Return t
             <-> exists x, SuitHolding._validate_cards o = Return x
                           /\ t = SuitHolding.mk (suit_symbol i) x).
  { intros i o t Hi. rewrite (fixed_suit_init i o Hi).
    destruct (SuitHolding._validate_cards o) as [x|e]; split.
    - intros [= <-]. now exists x.
    - now intros (x' & [= <-] & ->).
    - discriminate.
    - now intros (x' & [=] & _). }
  unfold Hand.__init__. rewrite HS, HH, HD, HC.
  split; [|split; [|split; [|split; [|split]]]].
  - intros hand. split.
    + destruct hS as [s|]; [|discriminate]. destruct hH as [h|]; [|discriminate].
      destruct hD as [d|]; [|discriminate]. destruct hC as [c|]; [|discriminate].
      intros [= <-]. now exists s, h, d, c.
    + now intros (s & h & d & c & -> & -> & -> & -> & ->).
  - intros s. apply (Hone 0%nat); lia.
  - intros h. apply (Hone 1%nat); lia.
  - intros d. apply (Hone 2%nat); lia.
  - intros c. apply (Hone 3%nat); lia.
  - intros e He.
    assert (HeS : hS = Raise e -> e = ValueError SuitHolding.cards_message)
      by (apply (fixed_suit_init_error 0); lia).
    assert (HeH : hH = Raise e -> e = ValueError SuitHolding.cards_message)
      by (apply (fixed_suit_init_error 1); lia).
    assert (HeD : hD = Raise e -> e = ValueError SuitHolding.cards_message)
      by (apply (fixed_suit_init_error 2); lia).
    assert (HeC : hC = Raise e -> e = ValueError SuitHolding.cards_message)
      by (apply (fixed_suit_init_error 3); lia).
    destruct hS as [s|es]; cbn [bind] in He;
      [|injection He as ->; split; [now apply HeS | now left]].
    destruct hH as [h|eh]; cbn [bind] in He;
      [|injection He as ->; split; [now apply HeH | right; left; now exists s]].
    destruct hD as [d|ed]; cbn [bind] in He;
      [|injection He as ->; split;
        [now apply HeD | right; right; left; now exists s, h]].
    destruct hC as [c|ec]; cbn [bind] in He; [discriminate|].
    injection He as ->. split; [now apply HeC|].
    right; right; right. now exists s, h, d.
Qed.

Lemma C8_witness :
  Hand.__init__ (PyStr (py "AKQ")) (PyStr (py "akq")) (PyStr (py "2A")) PyNone
  = Raise (ValueError SuitHolding.cards_message)
  /\ exists s h,
      SuitHolding.__init__ (PyStr (py "S")) (PyStr (py "AKQ")) = Return s
      /\ SuitHolding.__init__ (PyStr (py "H")) (PyStr (py "akq")) = Return h
      /\ SuitHolding.__init__ (PyStr (py "D")) (PyStr (py "2A"))
         = Raise (ValueError SuitHolding.cards_message).
Proof.
  pose proof (C8_hand_construction
                (PyStr (py "AKQ")) (PyStr (py "akq")) (PyStr (py "2A")) PyNone)
    as (_ & _ & _ & _ & _ & He).
  specialize (He (ValueError SuitHolding.cards_message)).
  split; [vm_compute; reflexivity|].
  destruct (He ltac:(vm_compute; reflexivity)) as (_ & [H|[H|[H|H]]]).
  - exfalso. vm_compute in H. discriminate.
  - exfalso. destruct H as (s & _ & H). vm_compute in H. discriminate.
  - destruct H as (s & h & Hs & Hh & Hd). now exists s, h.
  - exfalso. destruct H as (s & h & d & _ & _ & H & _). vm_compute in H. discriminate.
Defined.

Example no_cross_suit_check :
  Hand.__init__ (PyStr (py "AKQJT98765432x")) (PyStr (py "AKQJT98765432x"))
                (PyStr (py "AKQJT98765432x")) (PyStr (py "AKQJT98765432xxxx"))
  = Return (Hand.mk (SuitHolding.mk (py "S") (py "AKQJT98765432x"))
                    (SuitHolding.mk (py "H") (py "AKQJT98765432x"))
                    (SuitHolding.mk (py "D") (py "AKQJT98765432x"))
                    (SuitHolding.mk (py "C") (py "AKQJT98765432xxxx"))).
Proof. vm_compute. reflexivity. Qed.

(** The hand that the constructor returns holds four constructed holdings, in
    the suits S, H, D and C. *)
Lemma hand_init_inv (spades hearts diamonds clubs : pyobj) (hand : Hand.t) :
  Hand.__init__ spades hearts diamonds clubs = Return hand ->
  exists xs xh xd xc,
    hand = Hand.mk (SuitHolding.mk (py "S") xs) (SuitHolding.mk (py "H") xh)
                   (SuitHolding.mk (py "D") xd) (SuitHolding.mk (py "C") xc)
    /\ SuitHolding.__init__ (PyStr (py "S")) spades
       = Return (SuitHolding.mk (py "S") xs)
    /\ SuitHolding.__init__ (PyStr (py "H")) hearts
       = Return (SuitHolding.mk (py "H") xh)
    /\ SuitHolding.__init__ (PyStr (py "D")) diamonds
       = Return (SuitHolding.mk (py "D") xd)
    /\ SuitHolding.__init__ (PyStr (py "C")) clubs
       = Return (SuitHolding.mk (py "C") xc).
Proof.
  change (py "S") with (suit_symbol 0). change (py "H") with (suit_symbol 1).
  change (py "D") with (suit_symbol 2). change (py "C") with (suit_symbol 3).
  unfold Hand.__init__.
  rewrite !holding_eq by lia. rewrite !fixed_suit_init by lia.
  destruct (SuitHolding._validate_cards spades) as [xs|]; [|discriminate].
  destruct (SuitHolding._validate_cards hearts) as [xh|]; [|discriminate].
  destruct (SuitHolding._validate_cards diamonds) as [xd|]; [|discriminate].
  destruct (SuitHolding._validate_cards clubs) as [xc|]; [|discriminate].
  intros [= <-]. now exists xs, xh, xd, xc.
Qed.

(** Formatting a constructed holding never raises. *)
Lemma format_total (suit cards : pyobj) (h : SuitHolding.t) (spec : str) :
  SuitHolding.__init__ suit cards = Return h ->
  exists r, SuitHolding.__format__ h spec = Return r.
Proof.
  intros H.
  destruct (constructed_suit_position _ _ _ H) as (i & p & f & Hi & Hp & Hf).
  destruct (SuitHolding.html_spec spec) eqn:E.
  - eexists. now apply (format_html _ _ i f).
  - eexists. now apply (format_plain _ _ i p).
Qed.

Lemma hand_html_spec_nil : Hand.html_spec [] = false.
Proof. reflexivity. Qed.

Lemma hand_html_spec_char (c : char) :
  Hand.html_spec [c] = (c =? ch "H") || (c =? ch "h").
Proof.
  unfold Hand.html_spec, contains. rewrite py_Hh.
  change (ch "h") with 104. change (ch "H") with 72.
  cbn [truthy andb find startswith option_map].
  now destruct (c =? 104), (c =? 72).
Qed.

(** The part of C7 that the code meets.  A constructed hand is rendered by
    rendering its spades, hearts, diamonds and clubs holdings, in that order,
    each with the directive the hand was given, and putting the joiner between
    them.  Under no directive or a directive of one character the joiner goes
    with the mode of the holdings: the pair of non-breaking spaces under [h]
    and [H], two spaces otherwise. *)
Lemma hand_format_structure
    (spades hearts diamonds clubs : pyobj) (hand : Hand.t) (spec : str) :
  Hand.__init__ spades hearts diamonds clubs = Return hand ->
  exists rs rh rd rc,
    SuitHolding.__format__ (Hand._spades hand) spec = Return rs
    /\ SuitHolding.__format__ (Hand._hearts hand) spec = Return rh
    /\ SuitHolding.__format__ (Hand._diamonds hand) spec = Return rd
    /\ SuitHolding.__format__ (Hand._clubs hand) spec = Return rc
    /\ SuitHolding.suit (Hand._spades hand) = py "S"
    /\ SuitHolding.suit (Hand._hearts hand) = py "H"
    /\ SuitHolding.suit (Hand._diamonds hand) = py "D"
    /\ SuitHolding.suit (Hand._clubs hand) = py "C"
    /\ Hand.__format__ hand spec
       = Return (rs ++ Hand.joiner spec ++ rh ++ Hand.joiner spec
                    ++ rd ++ Hand.joiner spec ++ rc)
    /\ (Hand.joiner spec = py "&nbsp;&nbsp;" \/ Hand.joiner spec = py "  ")
    /\ (spec = py "h" \/ spec = py "H" ->
        Hand.joiner spec = py "&nbsp;&nbsp;"
        /\ SuitHolding.html_spec spec = true)
    /\ (spec = [] \/ (exists c, spec = [c] /\ c <> ch "h" /\ c <> ch "H") ->
        Hand.joiner spec = py "  " /\ SuitHolding.html_spec spec = false).
Proof.
  intros H.
  apply hand_init_inv in H as (xs & xh & xd & xc & -> & Hs & Hh & Hd & Hc).
  destruct (format_total _ _ _ spec Hs) as [rs Hrs].
  destruct (format_total _ _ _ spec Hh) as [rh Hrh].
  destruct (format_total _ _ _ spec Hd) as [rd Hrd].
  destruct (format_total _ _ _ spec Hc) as [rc Hrc].
  exists rs, rh, rd, rc. cbn [Hand._spades Hand._hearts Hand._diamonds Hand._clubs].
  repeat split; try easy.
  - unfold Hand.__format__, Hand._suits.
    cbn [mapM Hand._spades Hand._hearts Hand._diamonds Hand._clubs].
    rewrite Hrs, Hrh, Hrd, Hrc. reflexivity.
  - unfold Hand.joiner. destruct (Hand.html_spec spec); [now left | now right].
  - destruct H as [-> | ->]; reflexivity.
  - destruct H as [-> | ->]; reflexivity.
  - destruct H as [->|(k & -> & H1 & H2)]; [reflexivity|].
    unfold Hand.joiner. rewrite hand_html_spec_char.
    apply N.eqb_neq in H1, H2. now rewrite H1, H2.
  - destruct H as [->|(k & -> & H1 & H2)]; [reflexivity|].
    rewrite html_spec_char.
    apply N.eqb_neq in H1, H2. now rewrite H1, H2.
Qed.

Lemma hand_format_structure_demo :
  exists rs rh rd rc,
    SuitHolding.__format__ (Hand._spades demo) (py "h") = Return rs
    /\ SuitHolding.__format__ (Hand._hearts demo) (py "h") = Return rh
    /\ SuitHolding.__format__ (Hand._diamonds demo) (py "h") = Return rd
    /\ SuitHolding.__format__ (Hand._clubs demo) (py "h") = Return rc
    /\ SuitHolding.suit (Hand._spades demo) = py "S"
    /\ SuitHolding.suit (Hand._hearts demo) = py "H"
    /\ SuitHolding.suit (Hand._diamonds demo) = py "D"
    /\ SuitHolding.suit (Hand._clubs demo) = py "C"
    /\ Hand.__format__ demo (py "h")
       = Return (rs ++ Hand.joiner (py "h") ++ rh ++ Hand.joiner (py "h")
                    ++ rd ++ Hand.joiner (py "h") ++ rc)
    /\ (Hand.joiner (py "h") = py "&nbsp;&nbsp;" \/ Hand.joiner (py "h") = py "  ")
    /\ (py "h" = py "h" \/ py "h" = py "H" ->
        Hand.joiner (py "h") = py "&nbsp;&nbsp;"
        /\ SuitHolding.html_spec (py "h") = true)
    /\ (py "h" = [] \/ (exists c, py "h" = [c] /\ c <> ch "h" /\ c <> ch "H") ->
        Hand.joiner (py "h") = py "  " /\ SuitHolding.html_spec (py "h") = false).
Proof.
  apply (hand_format_structure (PyStr (py "ajt8")) (PyStr (py "aqt432"))
                        (PyStr (py "a5")) (PyStr (py "7")) demo (py "h")).
  vm_compute. reflexivity.
Qed.

Example demo_hand_html :
  Hand.__format__ demo (py "h")
  = Return (py "&#9824; A J 10 8&nbsp;&nbsp;"
            ++ SuitHolding.red_span "&#9829;" ++ py " A Q 10 4 3 2&nbsp;&nbsp;"
            ++ SuitHolding.red_span "&#9830;" ++ py " A 5&nbsp;&nbsp;"
            ++ py "&#9827; 7").
Proof. vm_compute. reflexivity. Qed.

Example empty_hand :
  (h <- Hand.__init__ (PyStr []) (PyStr []) (PyStr []) (PyStr []) ;;
   Hand.__format__ h [])
  = Return ([0x2660] ++ py " --  " ++ [0x2661] ++ py " --  "
            ++ [0x2662] ++ py " --  " ++ [0x2663] ++ py " --").
Proof. vm_compute. reflexivity. Qed.

(** C7 (as the code behaves): the joiner of a hand does not go with the mode
    of its holdings under every directive.  For the constructed hand
    Hand('ajt8','aqt432','a5','7'), the directive [hH] renders the four
    holdings in HTML mode and joins them with two spaces, and the directive
    [Hh] renders them in plain mode and joins them with the pair of
    non-breaking spaces. *)
Theorem C7_hand_joiner_against_mode :
  Hand.__init__ (PyStr (py "ajt8")) (PyStr (py "aqt432"))
                (PyStr (py "a5")) (PyStr (py "7"))
  = Return demo
  /\ SuitHolding.html_spec (py "hH") = true
  /\ Hand.__format__ demo (py "hH")
     = Return (py "&#9824; A J 10 8  "
               ++ SuitHolding.red_span "&#9829;" ++ py " A Q 10 4 3 2  "
               ++ SuitHolding.red_span "&#9830;" ++ py " A 5  "
               ++ py "&#9827; 7")
  /\ SuitHolding.html_spec (py "Hh") = false
  /\ Hand.__format__ demo (py "Hh")
     = Return ([0x2660] ++ py " A J 10 8&nbsp;&nbsp;"
               ++ [0x2661] ++ py " A Q 10 4 3 2&nbsp;&nbsp;"
               ++ [0x2662] ++ py " A 5&nbsp;&nbsp;"
               ++ [0x2663] ++ py " 7").
Proof. repeat split; vm_compute; reflexivity. Qed.

(** ** Directives of more than one character *)

Lemma html_spec_long (a b : char) (rest : str) :
  SuitHolding.html_spec (a :: b :: rest) = true <-> a :: b :: rest = py "hH".
Proof.
  unfold SuitHolding.html_spec, contains. rewrite py_hH.
  destruct rest as [|x rest];
    cbn [truthy andb find startswith option_map];
    destruct (N.eqb_spec a 104) as [Ha|Ha], (N.eqb_spec b 72) as [Hb|Hb],
      (N.eqb_spec a 72) as [Ha'|Ha'];
    cbn [andb option_map]; split; intros E;
    try discriminate E; try injection E as E1 E2; subst;
    reflexivity || congruence.
Qed.

Lemma hand_html_spec_long (a b : char) (rest : str) :
  Hand.html_spec (a :: b :: rest) = true <-> a :: b :: rest = py "Hh".
Proof.
  unfold Hand.html_spec, contains. rewrite py_Hh.
  destruct rest as [|x rest];
    cbn [truthy andb find startswith option_map];
    destruct (N.eqb_spec a 104) as [Ha|Ha], (N.eqb_spec b 104) as [Hb|Hb],
      (N.eqb_spec a 72) as [Ha'|Ha'];
    cbn [andb option_map]; split; intros E;
    try discriminate E; try injection E as E1 E2; subst;
    reflexivity || congruence.
Qed.

(** C10 (as the code behaves): [Hand.__format__] does not recognize the
    directive as [SuitHolding.__format__] does.  The holding tests the
    directive against [hH] (line 88), the hand against [Hh] (line 154).  So
    under [hH] the hand does not select HTML mode: its joiner is the two
    spaces, around holdings rendered in HTML mode; and under [Hh], another
    directive of two characters, the hand does select the HTML joiner, around
    holdings rendered in plain mode. *)
Theorem C10_hand_directive_transposed :
  Hand.html_spec (py "hH") = false
  /\ Hand.joiner (py "hH") = py "  "
  /\ Hand.html_spec (py "Hh") = true
  /\ Hand.joiner (py "Hh") = py "&nbsp;&nbsp;"
  /\ (h <- Hand.__init__ (PyStr []) (PyStr []) (PyStr []) (PyStr []) ;;
      Hand.__format__ h (py "hH"))
     = Return (py "&#9824; --  " ++ SuitHolding.red_span "&#9829;" ++ py " --  "
               ++ SuitHolding.red_span "&#9830;" ++ py " --  &#9827; --")
  /\ (h <- Hand.__init__ (PyStr []) (PyStr []) (PyStr []) (PyStr []) ;;
      Hand.__format__ h (py "Hh"))
     = Return ([0x2660] ++ py " --&nbsp;&nbsp;" ++ [0x2661] ++ py " --&nbsp;&nbsp;"
               ++ [0x2662] ++ py " --&nbsp;&nbsp;" ++ [0x2663] ++ py " --").
Proof. repeat split; vm_compute; reflexivity. Qed.

(** The two tests on directives of more than one character: the holding's
    test holds of [hH] alone, the hand's test of [Hh] alone. *)
Lemma long_directives_tests (spec : str) :
  (1 < length spec)%nat ->
  (SuitHolding.html_spec spec = true <-> spec = py "hH")
  /\ (spec <> py "hH" -> SuitHolding.html_spec spec = false)
  /\ (Hand.html_spec spec = true <-> spec = py "Hh")
  /\ (Hand.joiner spec = py "&nbsp;&nbsp;" <-> spec = py "Hh")
  /\ (spec <> py "Hh" -> Hand.joiner spec = py "  ").
Proof.
  intros H. destruct spec as [|a [|b rest]]; simpl in H; try lia.
  pose proof (html_spec_long a b rest) as Hs.
  pose proof (hand_html_spec_long a b rest) as Hh.
  unfold Hand.joiner.
  repeat split; try tauto.
  - intros Hn. destruct (SuitHolding.html_spec (a :: b :: rest)); tauto.
  - destruct (Hand.html_spec (a :: b :: rest)); [tauto | discriminate].
  - intros E. apply Hh in E. now rewrite E.
  - intros Hn. destruct (Hand.html_spec (a :: b :: rest)); tauto.
Qed.

Lemma long_directives_tests_example :
  (SuitHolding.html_spec (py "hHh") = true <-> py "hHh" = py "hH")
  /\ (py "hHh" <> py "hH" -> SuitHolding.html_spec (py "hHh") = false)
  /\ (Hand.html_spec (py "hHh") = true <-> py "hHh" = py "Hh")
  /\ (Hand.joiner (py "hHh") = py "&nbsp;&nbsp;" <-> py "hHh" = py "Hh")
  /\ (py "hHh" <> py "Hh" -> Hand.joiner (py "hHh") = py "  ").
Proof.
  apply (long_directives_tests (py "hHh")). vm_compute. lia.
Qed.

(** * Further properties of the code *)

Example main_prints :
  main
  = Return [ py "Hand(spades='AJT8', hearts='AQT432', diamonds='A5', clubs='7')";
             py "&#9824; A J 10 8&nbsp;&nbsp;"
                ++ SuitHolding.red_span "&#9829;" ++ py " A Q 10 4 3 2&nbsp;&nbsp;"
                ++ SuitHolding.red_span "&#9830;" ++ py " A 5&nbsp;&nbsp;"
                ++ py "&#9827; 7";
             [0x2660] ++ py " A J 10 8  " ++ [0x2661] ++ py " A Q 10 4 3 2  "
                ++ [0x2662] ++ py " A 5  " ++ [0x2663] ++ py " 7" ].
Proof. vm_compute. reflexivity. Qed.

(** ** What a constructed holding stores *)

Lemma constructed_suit (suit cards : pyobj) (h : SuitHolding.t) :
  SuitHolding.__init__ suit cards = Return h ->
  substring (SuitHolding.suit h) Constants.SUITS.
Proof.
  intros H. apply init_inv in H as [Hu _].
  now apply validate_suit_inv in Hu as (s & _ & _ & Hsub).
Qed.

Lemma validated_cards_valid (cards : pyobj) (c : str) :
  SuitHolding._validate_cards cards = Return c ->
  SuitHolding.scan valid_cards (-1) c = Return tt
  /\ forall d, In d c -> In d valid_cards.
Proof.
  intros H. apply validate_cards_inv in H as (s & _ & -> & Hscan).
  split; [easy | apply (scan_Return_found _ _ _ Hscan)].
Qed.

Lemma constructed_cards (suit cards : pyobj) (h : SuitHolding.t) :
  SuitHolding.__init__ suit cards = Return h ->
  forall d, In d (SuitHolding.cards h) -> In d valid_cards.
Proof.
  intros H. apply init_inv in H as [_ Hc].
  now apply validated_cards_valid in Hc.
Qed.

(** ** repr *)

(** Two texts that agree up to and after a delimiter which neither has before
    it are equal part by part. *)
Lemma split_at (d : char) (u1 u2 r1 r2 : str) :
  ~ In d u1 -> ~ In d u2 ->
  u1 ++ d :: r1 = u2 ++ d :: r2 -> u1 = u2 /\ r1 = r2.
Proof.
  revert u2; induction u1 as [|a u1 IH]; intros [|b u2] H1 H2 E; simpl in *.
  - now injection E.
  - injection E as -> _. tauto.
  - injection E as -> _. tauto.
  - injection E as -> E. destruct (IH u2) as [-> ->]; tauto.
Qed.

Lemma no_quote_in_suit (u : str) :
  substring u Constants.SUITS -> ~ In (ch "'") u.
Proof.
  intros H Hq. apply (substring_In _ _ _ H) in Hq. rewrite SUITS_eq in Hq.
  simpl in Hq. intuition discriminate.
Qed.

Lemma no_quote_in_cards (c : str) :
  (forall d, In d c -> In d valid_cards) -> ~ In (ch "'") c.
Proof.
  intros H Hq. apply H in Hq. rewrite valid_cards_eq in Hq.
  simpl in Hq. intuition discriminate.
Qed.

(** X1: the repr of a constructed holding tells the holding: two constructed
    holdings with the same repr have the same suit and the same cards. *)
Theorem X1_repr_unambiguous
    (suit1 cards1 suit2 cards2 : pyobj) (h1 h2 : SuitHolding.t) :
  SuitHolding.__init__ suit1 cards1 = Return h1 ->
  SuitHolding.__init__ suit2 cards2 = Return h2 ->
  SuitHolding.__repr__ h1 = SuitHolding.__repr__ h2 ->
  h1 = h2.
Proof.
  intros H1 H2 E.
  pose proof (no_quote_in_suit _ (constructed_suit _ _ _ H1)) as Q1.
  pose proof (no_quote_in_suit _ (constructed_suit _ _ _ H2)) as Q2.
  pose proof (no_quote_in_cards _ (constructed_cards _ _ _ H1)) as K1.
  pose proof (no_quote_in_cards _ (constructed_cards _ _ _ H2)) as K2.
  destruct h1 as [u1 c1], h2 as [u2 c2].
  unfold SuitHolding.__repr__ in E.
  cbn [SuitHolding.suit SuitHolding.cards SuitHolding._suit SuitHolding._cards] in *.
  do 2 apply app_inv_head in E.
  change (py "', cards='") with (ch "'" :: py ", cards='") in E.
  cbn [app] in E. apply split_at in E as [-> E]; try easy.
  apply app_inv_head in E.
  change (py "')") with (ch "'" :: py ")") in E.
  apply split_at in E as [-> _]; easy.
Qed.

Lemma X1_witness :
  SuitHolding.mk (py "H") (py "KTxx") = SuitHolding.mk (py "H") (py "KTxx").
Proof.
  apply (X1_repr_unambiguous (PyStr (py "h")) (PyStr (py "ktxX"))
                             (PyStr (py "H")) (PyStr (py "KTXx")));
    vm_compute; reflexivity.
Defined.

Example repr_example :
  SuitHolding.__repr__ (SuitHolding.mk (py "H") (py "KTxx"))
  = py "SuitHolding(suit='H', cards='KTxx')".
Proof. vm_compute. reflexivity. Qed.

Lemma hand_cards_valid (spades hearts diamonds clubs : pyobj) (hand : Hand.t) :
  Hand.__init__ spades hearts diamonds clubs = Return hand ->
  exists xs xh xd xc,
    hand = Hand.mk (SuitHolding.mk (py "S") xs) (SuitHolding.mk (py "H") xh)
                   (SuitHolding.mk (py "D") xd) (SuitHolding.mk (py "C") xc)
    /\ (forall d, In d xs -> In d valid_cards)
    /\ (forall d, In d xh -> In d valid_cards)
    /\ (forall d, In d xd -> In d valid_cards)
    /\ (forall d, In d xc -> In d valid_cards).
Proof.
  intros H.
  apply hand_init_inv in H as (xs & xh & xd & xc & -> & Hs & Hh & Hd & Hc).
  exists xs, xh, xd, xc. split; [reflexivity|].
  repeat split.
  - apply (constructed_cards _ _ _ Hs).
  - apply (constructed_cards _ _ _ Hh).
  - apply (constructed_cards _ _ _ Hd).
  - apply (constructed_cards _ _ _ Hc).
Qed.

(** X2: the repr of a constructed hand tells the hand: two constructed hands
    with the same repr are the same hand. *)
Theorem X2_hand_repr_unambiguous
    (s1 h1 d1 c1 s2 h2 d2 c2 : pyobj) (hand1 hand2 : Hand.t) :
  Hand.__init__ s1 h1 d1 c1 = Return hand1 ->
  Hand.__init__ s2 h2 d2 c2 = Return hand2 ->
  Hand.__repr__ hand1 = Hand.__repr__ hand2 ->
  hand1 = hand2.
Proof.
  intros H1 H2 E.
  apply hand_cards_valid in H1 as (xs & xh & xd & xc & -> & Vs & Vh & Vd & Vc).
  apply hand_cards_valid in H2 as (ys & yh & yd & yc & -> & Ws & Wh & Wd & Wc).
  apply no_quote_in_cards in Vs, Vh, Vd, Vc, Ws, Wh, Wd, Wc.
  unfold Hand.__repr__, Hand.spades, Hand.hearts, Hand.diamonds, Hand.clubs in E.
  cbn [Hand._spades Hand._hearts Hand._diamonds Hand._clubs
       SuitHolding.cards SuitHolding._cards] in E.
  do 2 apply app_inv_head in E.
  change (py "', ") with (ch "'" :: py ", ") in E.
  change (py "')") with (ch "'" :: py ")") in E.
  cbn [app] in E.
  apply split_at in E as [-> E]; try easy.
  do 2 apply app_inv_head in E. apply split_at in E as [-> E]; try easy.
  do 2 apply app_inv_head in E. apply split_at in E as [-> E]; try easy.
  do 2 apply app_inv_head in E. apply split_at in E as [-> _]; easy.
Qed.

Lemma X2_witness :
  Hand.mk (SuitHolding.mk (py "S") (py "AK")) (SuitHolding.mk (py "H") [])
          (SuitHolding.mk (py "D") (py "xx")) (SuitHolding.mk (py "C") (py "T"))
  = Hand.mk (SuitHolding.mk (py "S") (py "AK")) (SuitHolding.mk (py "H") [])
            (SuitHolding.mk (py "D") (py "xx")) (SuitHolding.mk (py "C") (py "T")).
Proof.
  apply (X2_hand_repr_unambiguous
           (PyStr (py "ak")) (PyStr []) (PyStr (py "xX")) (PyStr (py "t"))
           (PyStr (py "AK")) (PyStr []) (PyStr (py "Xx")) (PyStr (py "T")));
    vm_compute; reflexivity.
Defined.

(** X3: a constructed hand is built again from its own four accessors:
    Hand(h.spades, h.hearts, h.diamonds, h.clubs) succeeds and is [h]. *)
Theorem X3_hand_reconstruction
    (spades hearts diamonds clubs : pyobj) (hand : Hand.t) :
  Hand.__init__ spades hearts diamonds clubs = Return hand ->
  Hand.__init__ (PyStr (Hand.spades hand)) (PyStr (Hand.hearts hand))
                (PyStr (Hand.diamonds hand)) (PyStr (Hand.clubs hand))
  = Return hand.
Proof.
  intros H.
  apply hand_init_inv in H as (xs & xh & xd & xc & -> & Hs & Hh & Hd & Hc).
  assert (R : forall (i : nat) (o : pyobj) (x : str),
             (i < 4)%nat ->
             SuitHolding.__init__ (PyStr (suit_symbol i)) o
             = Return (SuitHolding.mk (suit_symbol i) x) ->
             Hand.holding i (PyStr x) = Return (SuitHolding.mk (suit_symbol i) x)).
  { intros i o x Hi Ho. rewrite holding_eq, fixed_suit_init by easy.
    apply init_inv in Ho as [_ Ho]. cbn [SuitHolding.cards SuitHolding._cards] in Ho.
    apply validated_cards_valid in Ho as [Hscan Hin].
    now rewrite validate_cards_str, (cards_canonical_fixed x Hin), Hscan. }
  unfold Hand.__init__, Hand.spades, Hand.hearts, Hand.diamonds, Hand.clubs.
  cbn [Hand._spades Hand._hearts Hand._diamonds Hand._clubs
       SuitHolding.cards SuitHolding._cards].
  rewrite (R 0%nat spades xs), (R 1%nat hearts xh), (R 2%nat diamonds xd),
    (R 3%nat clubs xc); try easy; lia.
Qed.

Lemma X3_witness :
  Hand.__init__ (PyStr (Hand.spades demo)) (PyStr (Hand.hearts demo))
                (PyStr (Hand.diamonds demo)) (PyStr (Hand.clubs demo))
  = Return demo.
Proof.
  apply (X3_hand_reconstruction (PyStr (py "ajt8")) (PyStr (py "aqt432"))
                                (PyStr (py "a5")) (PyStr (py "7"))).
  vm_compute. reflexivity.
Defined.

(** ** What can raise *)

(** X4: formatting a constructed holding or a constructed hand returns a
    string under every directive: after construction nothing raises.  A
    record that construction would not have produced can raise: with the suit
    [Z] the lookup of the pictograph fails. *)
Theorem X4_format_never_raises :
  (forall (suit cards : pyobj) (h : SuitHolding.t) (spec : str),
      SuitHolding.__init__ suit cards = Return h ->
      exists r, SuitHolding.__format__ h spec = Return r)
  /\ (forall (spades hearts diamonds clubs : pyobj) (hand : Hand.t) (spec : str),
         Hand.__init__ spades hearts diamonds clubs = Return hand ->
         exists r, Hand.__format__ hand spec = Return r)
  /\ SuitHolding.__format__ (SuitHolding.mk (py "Z") (py "AK")) []
     = Raise (ValueError (py "substring not found")).
Proof.
  split; [|split; [|vm_compute; reflexivity]].
  - intros suit cards h spec H. now apply (format_total suit cards).
  - intros spades hearts diamonds clubs hand spec H.
    apply hand_init_inv in H as (xs & xh & xd & xc & -> & Hs & Hh & Hd & Hc).
    destruct (format_total _ _ _ spec Hs) as [rs Hrs].
    destruct (format_total _ _ _ spec Hh) as [rh Hrh].
    destruct (format_total _ _ _ spec Hd) as [rd Hrd].
    destruct (format_total _ _ _ spec Hc) as [rc Hrc].
    unfold Hand.__format__, Hand._suits.
    cbn [mapM Hand._spades Hand._hearts Hand._diamonds Hand._clubs].
    rewrite Hrs, Hrh, Hrd, Hrc. cbn [bind]. now eexists.
Qed.

Lemma X4_witness :
  exists r, Hand.__format__ demo (py "anything") = Return r.
Proof.
  apply (proj1 (proj2 X4_format_never_raises)
               (PyStr (py "ajt8")) (PyStr (py "aqt432"))
               (PyStr (py "a5")) (PyStr (py "7")) demo (py "anything")).
  vm_compute. reflexivity.
Defined.

(** X5: when the suit and the cards are each a str or an object without an
    [upper] attribute (such as None), the construction of a holding raises
    nothing but a ValueError with one of its two messages; the
    AttributeError of the attribute-less object never comes out.  The suit is
    validated first: when the suit is refused the suit message is raised
    whatever the cards are, and the cards message is raised only for an
    accepted suit.  (A bytes argument is outside this statement: its
    [upper()] succeeds and the test against a str that follows raises
    TypeError, which the except clause does not catch.) *)
Theorem X5_constructor_errors (suit cards : pyobj) (e : exn) :
  SuitHolding.__init__ suit cards = Raise e ->
  (e = ValueError (py "Suit must be one of SHDC")
   /\ SuitHolding._validate_suit suit = Raise e
   /\ forall cards', SuitHolding.__init__ suit cards' = Raise e)
  \/ (e = ValueError (py "Cards must consist of AKQJT98765432 or x in proper order")
      /\ SuitHolding._validate_cards cards = Raise e
      /\ exists u, SuitHolding._validate_suit suit = Return u).
Proof.
  unfold SuitHolding.__init__.
  destruct (SuitHolding._validate_suit suit) as [u|es] eqn:Hs; cbn [bind].
  - destruct (SuitHolding._validate_cards cards) as [c|ec] eqn:Hc; cbn [bind];
      [discriminate|].
    intros [= <-]. right. apply validate_cards_error in Hc as E. subst ec.
    split; [reflexivity|]. split; [reflexivity | now exists u].
  - intros [= <-]. left. apply validate_suit_error in Hs as E. subst es.
    split; [reflexivity|]. split; reflexivity.
Qed.

Lemma X5_witness :
  (ValueError (py "Suit must be one of SHDC")
   = ValueError (py "Suit must be one of SHDC")
   /\ SuitHolding._validate_suit (PyStr (py "n"))
      = Raise (ValueError (py "Suit must be one of SHDC"))
   /\ forall cards',
        SuitHolding.__init__ (PyStr (py "n")) cards'
        = Raise (ValueError (py "Suit must be one of SHDC")))
  \/ (ValueError (py "Suit must be one of SHDC")
      = ValueError (py "Cards must consist of AKQJT98765432 or x in proper order")
      /\ SuitHolding._validate_cards (PyStr (py "AA"))
         = Raise (ValueError (py "Suit must be one of SHDC"))
      /\ exists u, SuitHolding._validate_suit (PyStr (py "n")) = Return u).
Proof.
  apply (X5_constructor_errors (PyStr (py "n")) (PyStr (py "AA"))).
  vm_compute. reflexivity.
Defined.

(** ** The shape of stored cards *)

Lemma find_char_nth (V : str) (d : char) (i : nat) :
  find V [d] = Some i -> nth_error V i = Some d.
Proof.
  intros H. destruct (find_Some _ _ _ H) as (pre & post & -> & <-).
  rewrite nth_error_app2 by lia. now rewrite Nat.sub_diag.
Qed.

Lemma nth_find_char (V : str) (d : char) (i : nat) :
  NoDup V -> nth_error V i = Some d -> find V [d] = Some i.
Proof.
  intros Hn Hi.
  assert (Hin : In d V) by (eapply nth_error_In; eauto).
  apply find_char_In in Hin.
  destruct (find V [d]) as [j|] eqn:Hj; [|congruence].
  apply find_char_nth in Hj as Hj'. f_equal.
  apply (proj1 (NoDup_nth_error V) Hn).
  - apply nth_error_Some. congruence.
  - congruence.
Qed.

Lemma valid_cards_NoDup : NoDup valid_cards.
Proof.
  rewrite valid_cards_eq.
  repeat (constructor; [simpl; intuition discriminate|]). constructor.
Qed.

Lemma valid_cards_split : valid_cards = RANKS ++ [ch "x"].
Proof. reflexivity. Qed.

(** The loop's test, read as a fact about the index. *)
Lemma scan_cons_inv (V : str) (last : Z) (d : char) (t : str) :
  SuitHolding.scan V last (d :: t) = Return tt ->
  exists i, find V [d] = Some i
            /\ (last <= Z.of_nat i)%Z
            /\ (Z.of_nat i = last -> d = ch "x")
            /\ SuitHolding.scan V (Z.of_nat i) t = Return tt.
Proof.
  rewrite scan_cons. destruct (find V [d]) as [i|]; [|discriminate].
  destruct (_ || _)%bool eqn:Ht; [discriminate|].
  intros H. exists i. apply orb_false_iff in Ht as [H1 H2].
  apply Z.ltb_ge in H1. repeat split; try easy.
  intros E. apply Z.eqb_eq in E. rewrite E in H2. simpl in H2.
  apply negb_false_iff, N.eqb_eq in H2. exact H2.
Qed.

Lemma scan_cons_intro (V : str) (last : Z) (d : char) (t : str) (i : nat) :
  find V [d] = Some i ->
  (last < Z.of_nat i)%Z ->
  SuitHolding.scan V (Z.of_nat i) t = Return tt ->
  SuitHolding.scan V last (d :: t) = Return tt.
Proof.
  intros Hf Hlt Ht. rewrite scan_cons, Hf.
  replace (Z.of_nat i <? last)%Z with false by (symmetry; apply Z.ltb_ge; lia).
  replace (Z.of_nat i =? last)%Z with false by (symmetry; apply Z.eqb_neq; lia).
  exact Ht.
Qed.

(** Along an accepted string the index never goes back, and stays level only
    on the placeholder. *)
Lemma scan_bound (V : str) (c : str) (last : Z) :
  SuitHolding.scan V last c = Return tt ->
  forall e, In e c ->
            exists j, find V [e] = Some j /\ (last <= Z.of_nat j)%Z
                      /\ (Z.of_nat j = last -> e = ch "x").
Proof.
  revert last; induction c as [|d t IH]; intros last H e He; [easy|].
  apply scan_cons_inv in H as (i & Hf & Hle & Hx & Ht).
  destruct He as [<-|He]; [now exists i|].
  destruct (IH _ Ht e He) as (j & Hj & Hij & Hjx).
  exists j. repeat split; [easy | lia |].
  intros E. apply Hjx. lia.
Qed.

Lemma held_false_filter (c W : str) :
  (forall w, In w W -> held c w = false) -> filter (held c) W = [].
Proof.
  induction W as [|w W IH]; intros H; [reflexivity|].
  simpl. rewrite (H w) by now left. apply IH. intros; apply H; now right.
Qed.

Lemma held_In (c : str) (v : char) : held c v = true <-> In v c.
Proof. apply existsb_eqb_In. Qed.

Lemma held_not_In (c : str) (v : char) : held c v = false <-> ~ In v c.
Proof. rewrite <- held_In. now destruct (held c v). Qed.

(** From the rank at position [length pre] on, an accepted string is the
    ranks it holds, in the order of [RANKS], and then placeholders. *)
Lemma scan_filter (W pre : str) :
  pre ++ W = RANKS ->
  forall c,
    SuitHolding.scan valid_cards (Z.of_nat (length pre) - 1) c = Return tt ->
    exists n, c = filter (held c) W ++ repeat (ch "x") n.
Proof.
  revert pre; induction W as [|v W IH]; intros pre E c H.
  - exists (length c). cbn [filter app]. apply Forall_eq_repeat, Forall_forall.
    intros e He. rewrite app_nil_r in E. subst pre.
    destruct (scan_bound _ _ _ H e He) as (j & Hj & Hle & Hx).
    apply find_char_nth in Hj as Hn.
    assert (Hlt : (j < length valid_cards)%nat)
      by (apply nth_error_Some; congruence).
    change (length valid_cards) with 14%nat in Hlt.
    change (length RANKS) with 13%nat in *.
    assert (Hj' : j = 12%nat \/ j = 13%nat) by lia.
    destruct Hj' as [-> | ->].
    + symmetry. apply Hx. reflexivity.
    + vm_compute in Hn. injection Hn as <-. reflexivity.
  - assert (Hlen : (length pre + S (length W) = 13)%nat).
    { change 13%nat with (length RANKS). rewrite <- E, length_app. reflexivity. }
    assert (EV : valid_cards = pre ++ v :: (W ++ [ch "x"])).
    { rewrite valid_cards_split, <- E, <- app_assoc. reflexivity. }
    assert (Hv : nth_error valid_cards (length pre) = Some v).
    { rewrite EV, nth_error_app2, Nat.sub_diag by lia. reflexivity. }
    assert (Hx13 : find valid_cards [ch "x"] = Some 13%nat) by reflexivity.
    assert (Hpre : (pre ++ [v]) ++ W = RANKS) by (now rewrite <- app_assoc).
    assert (Hlast : (Z.of_nat (length (pre ++ [v])) - 1 = Z.of_nat (length pre))%Z).
    { rewrite length_app. simpl. lia. }
    assert (HW : forall w, In w W -> w <> v).
    { intros w Hw ->. pose proof valid_cards_NoDup as Hn.
      rewrite EV in Hn. apply NoDup_remove_2 in Hn. apply Hn.
      apply in_or_app. right. apply in_or_app. now left. }
    destruct c as [|d t].
    + exists 0%nat. cbn [repeat]. rewrite app_nil_r. symmetry.
      apply held_false_filter. reflexivity.
    + apply scan_cons_inv in H as (i & Hf & Hle & Hx & Ht).
      assert (Hi : (length pre <= i)%nat).
      { destruct (Z.eq_dec (Z.of_nat i) (Z.of_nat (length pre) - 1)) as [Ei|Ei];
          [|lia].
        apply Hx in Ei as ->. rewrite Hx13 in Hf. injection Hf as <-. lia. }
      destruct (N.eq_dec d v) as [->|Hdv].
      * assert (i = length pre) as ->.
        { apply nth_find_char in Hv; [|apply valid_cards_NoDup]. congruence. }
        rewrite <- Hlast in Ht.
        destruct (IH _ Hpre t Ht) as [n Hn]. exists n.
        cbn [filter]. unfold held at 1. cbn [existsb]. rewrite N.eqb_refl.
        cbn [orb app]. f_equal.
        rewrite (filter_ext_in (held (v :: t)) (held t)); [exact Hn|].
        intros w Hw. unfold held. cbn [existsb].
        replace (w =? v) with false; [reflexivity|].
        symmetry. apply N.eqb_neq. now apply HW.
      * assert (Hi' : (length pre < i)%nat).
        { destruct (Nat.eq_dec i (length pre)) as [->|]; [|lia].
          apply find_char_nth in Hf. congruence. }
        assert (Hc : SuitHolding.scan valid_cards
                       (Z.of_nat (length (pre ++ [v])) - 1) (d :: t) = Return tt).
        { rewrite Hlast. apply (scan_cons_intro _ _ _ _ i); try easy. lia. }
        destruct (IH _ Hpre _ Hc) as [n Hn]. exists n.
        cbn [filter].
        replace (held (d :: t) v) with false; [exact Hn|].
        symmetry. apply held_not_In. intros Hin.
        rewrite Hlast in Hc.
        destruct (scan_bound _ _ _ Hc v Hin) as (j & Hj & Hjle & Hjx).
        apply nth_find_char in Hv; [|apply valid_cards_NoDup].
        rewrite Hv in Hj. injection Hj as <-.
        assert (Ex : v = ch "x") by (apply Hjx; reflexivity).
        rewrite Ex, Hx13 in Hv. injection Hv as Hv. lia.
Qed.

(** X6: the cards of a constructed holding are in one fixed form: the ranks
    the holding has, each once and in the order of AKQJT98765432, and after
    them all its placeholders.  So a holding has at most thirteen cards that
    are not placeholders, and its cards are known from which ranks it holds
    and how many placeholders. *)
Theorem X6_cards_shape (suit cards : pyobj) (h : SuitHolding.t) :
  SuitHolding.__init__ suit cards = Return h ->
  exists n,
    SuitHolding.cards h
    = filter (held (SuitHolding.cards h)) RANKS ++ repeat (ch "x") n
    /\ n = count_occ N.eq_dec (SuitHolding.cards h) (ch "x")
    /\ (length (SuitHolding.cards h) <= 13 + n)%nat.
Proof.
  intros H. apply init_inv in H as [_ Hc].
  apply validated_cards_valid in Hc as [Hscan _].
  destruct (scan_filter RANKS [] eq_refl _ Hscan) as [n Hn].
  exists n. split; [exact Hn|]. split.
  - replace (count_occ N.eq_dec (SuitHolding.cards h) (ch "x"))
      with (count_occ N.eq_dec
              (filter (held (SuitHolding.cards h)) RANKS ++ repeat (ch "x") n)
              (ch "x")) by (now rewrite <- Hn).
    rewrite count_occ_app, count_occ_repeat_eq by reflexivity.
    rewrite (proj1 (count_occ_not_In N.eq_dec _ _)); [reflexivity|].
    intros Hin. apply filter_In in Hin as [Hin _].
    vm_compute in Hin. intuition discriminate.
  - rewrite Hn at 1. rewrite length_app, repeat_length.
    pose proof (filter_length_le (held (SuitHolding.cards h)) RANKS) as L.
    change (length RANKS) with 13%nat in L. lia.
Qed.

Lemma X6_witness :
  exists n,
    py "AT92xx" = filter (held (py "AT92xx")) RANKS ++ repeat (ch "x") n
    /\ n = count_occ N.eq_dec (py "AT92xx") (ch "x")
    /\ (length (py "AT92xx") <= 13 + n)%nat.
Proof.
  apply (X6_cards_shape (PyStr (py "c")) (PyStr (py "at92Xx"))
                        (SuitHolding.mk (py "C") (py "AT92xx"))).
  vm_compute. reflexivity.
Defined.

(** ** Taking a card away *)

Lemma chain_drop_head (a : char) (q : str) (last : Z) :
  chain last (a :: q) -> chain last q.
Proof.
  intros (ra & Ha & Hstep & Hq). destruct q as [|b q]; [easy|].
  destruct Hq as (rb & Hb & Hstep' & Hq').
  exists rb. repeat split; try easy.
  destruct Hstep as [?|[? ?]], Hstep' as [?|[? ?]]; try (left; lia).
  right. split; [lia | easy].
Qed.

Lemma chain_remove (p q : str) (a : char) (last : Z) :
  chain last (p ++ a :: q) -> chain last (p ++ q).
Proof.
  revert last; induction p as [|c p IH]; intros last H.
  - now apply chain_drop_head in H.
  - destruct H as (r & Hr & Hstep & H). exists r. repeat split; try easy.
    now apply IH.
Qed.

Lemma canonical_app (a b : str) :
  canonical (a ++ b) = canonical a ++ canonical b.
Proof.
  unfold canonical, upper. now rewrite flat_map_app, replace_app.
Qed.

(** X7: a card string that is accepted is still accepted when any one card
    is taken out of it, and the stored cards are then the stored cards of
    before without that card. *)
Theorem X7_remove_card (p q : str) (a : char) (c : str) :
  SuitHolding._validate_cards (PyStr (p ++ a :: q)) = Return c ->
  exists cp cq,
    c = cp ++ normalize_case a :: cq
    /\ SuitHolding._validate_cards (PyStr (p ++ q)) = Return (cp ++ cq).
Proof.
  intros H. apply validate_cards_inv in H as (s & [= <-] & -> & Hscan).
  apply scan_chain in Hscan as Hch.
  pose proof (chain_alphabet _ _ Hch) as Ha.
  apply Forall_app in Ha as [_ Ha]. inversion Ha as [|? ? [r Hr] _]; subst.
  destruct (rank_canonical a r Hr) as (Hca & _).
  exists (canonical p), (canonical q). split.
  - now rewrite canonical_app, canonical_cons, Hca.
  - rewrite validate_cards_str.
    apply chain_remove, scan_chain in Hch. rewrite Hch.
    now rewrite canonical_app.
Qed.

Lemma X7_witness :
  exists cp cq,
    py "AQ9x" = cp ++ normalize_case (ch "q") :: cq
    /\ SuitHolding._validate_cards (PyStr (py "a" ++ py "9X"))
       = Return (cp ++ cq).
Proof.
  apply (X7_remove_card (py "a") (py "9X") (ch "q") (py "AQ9x")).
  vm_compute. reflexivity.
Defined.

(** ** Case *)

Lemma upper_char_ascii (c : char) :
  c < 128 -> exists u, upper_char c = [u] /\ u < 128 /\ upper_char u = [u].
Proof.
  intros H.
  assert (E : (fun c => match upper_char c with
                        | [u] => (u <? 128) && str_eqb (upper_char u) [u]
                        | _ => false
                        end) c = true).
  { revert c H. apply below_128. vm_compute. reflexivity. }
  cbv beta in E. destruct (upper_char c) as [|u [|? ?]]; try discriminate.
  apply andb_true_iff in E as [E1 E2].
  exists u. repeat split; [now apply N.ltb_lt | now apply str_eqb_eq].
Qed.

Lemma upper_idempotent_ascii (s : str) :
  Forall (fun c => c < 128) s -> upper (upper s) = upper s.
Proof.
  induction 1 as [|c s Hc _ IH]; [reflexivity|].
  destruct (upper_char_ascii c Hc) as (u & Hu & _ & Hu').
  unfold upper in *. cbn [flat_map]. rewrite flat_map_app, IH, Hu.
  cbn [flat_map]. now rewrite Hu', app_nil_r.
Qed.

(** X8: construction does not look at the case of ASCII input: uppercasing
    the suit and the cards before constructing gives the same outcome, be it
    a holding or an exception. *)
Theorem X8_case_insensitive (suit cards : str) :
  Forall (fun c => c < 128) suit ->
  Forall (fun c => c < 128) cards ->
  SuitHolding.__init__ (PyStr (upper suit)) (PyStr (upper cards))
  = SuitHolding.__init__ (PyStr suit) (PyStr cards).
Proof.
  intros Hs Hc. unfold SuitHolding.__init__.
  rewrite !validate_suit_str, !validate_cards_str. unfold canonical.
  now rewrite (upper_idempotent_ascii _ Hs), (upper_idempotent_ascii _ Hc).
Qed.

Lemma X8_witness :
  SuitHolding.__init__ (PyStr (upper (py "d"))) (PyStr (upper (py "kJ9x")))
  = SuitHolding.__init__ (PyStr (py "d")) (PyStr (py "kJ9x")).
Proof.
  apply (X8_case_insensitive (py "d") (py "kJ9x"));
    repeat constructor.
Defined.

(** ** The suits a holding can store *)

Lemma substring_slice (u s : str) :
  substring u s ->
  exists n, (n + length u <= length s)%nat
            /\ u = firstn (length u) (skipn n s).
Proof.
  intros (pre & post & ->). exists (length pre). split.
  - rewrite !length_app. lia.
  - rewrite skipn_app, skipn_all, Nat.sub_diag. cbn [skipn app].
    now rewrite firstn_app, firstn_all, Nat.sub_diag, firstn_O, app_nil_r.
Qed.

(** X9: the suits that validation lets through are exactly eleven strings:
    the empty string, the four symbols, and SH, HD, DC, SHD, HDC and SHDC.
    Each of them is accepted as it is, and nothing else is ever stored as
    the suit of a holding. *)
Theorem X9_accepted_suits (u : str) :
  (exists suit, SuitHolding._validate_suit suit = Return u)
  <-> In u accepted_suits.
Proof.
  split.
  - intros [suit H]. apply validate_suit_inv in H as (s & _ & _ & Hsub).
    apply substring_slice in Hsub as (n & Hlen & Hu).
    change (length Constants.SUITS) with 4%nat in Hlen.
    remember (length u) as m eqn:Hm. clear Hm.
    assert (Hn : (n <= 4)%nat) by lia.
    destruct n as [|[|[|[|[|n]]]]]; try lia;
      destruct m as [|[|[|[|[|m]]]]]; try lia; subst u;
      vm_compute; tauto.
  - intros H. exists (PyStr u).
    unfold accepted_suits in H. cbn [In] in H.
    repeat (destruct H as [<-|H]; [vm_compute; reflexivity|]). easy.
Qed.

Lemma X9_witness : In (py "HDC") accepted_suits.
Proof.
  apply (proj1 (X9_accepted_suits (py "HDC"))).
  exists (PyStr (py "hdc")). vm_compute. reflexivity.
Defined.

(** ** str *)

Lemma not_valid_card (d : char) :
  In d [ch " "; ch "-"; ch "1"; ch "0"] -> ~ In d valid_cards.
Proof.
  intros H Hv. rewrite valid_cards_eq in Hv.
  simpl in H. destruct H as [<-|[<-|[<-|[<-|[]]]]];
    simpl in Hv; intuition discriminate.
Qed.

Lemma expand_ten_head (a b : char) (X Y : str) :
  In a valid_cards -> In b valid_cards ->
  expand_ten a ++ X = expand_ten b ++ Y -> a = b /\ X = Y.
Proof.
  intros Ha Hb. unfold expand_ten. change (ch "T") with 84.
  destruct (N.eqb_spec a 84) as [->|Na], (N.eqb_spec b 84) as [->|Nb];
    cbn [app]; intros E.
  - now apply app_inv_head in E.
  - injection E as E _. exfalso. subst b.
    apply (not_valid_card (ch "1")); [simpl; tauto | exact Hb].
  - injection E as E _. exfalso. subst a.
    apply (not_valid_card (ch "1")); [simpl; tauto | exact Ha].
  - now injection E.
Qed.

Lemma join_expand_cons (a : char) (t : str) :
  join (py " ") (map expand_ten (a :: t))
  = expand_ten a ++ match t with
                    | [] => []
                    | _ => py " " ++ join (py " ") (map expand_ten t)
                    end.
Proof. destruct t; simpl; [now rewrite app_nil_r | reflexivity]. Qed.

Lemma join_expand_inj (c1 c2 : str) :
  (forall d, In d c1 -> In d valid_cards) ->
  (forall d, In d c2 -> In d valid_cards) ->
  join (py " ") (map expand_ten c1) = join (py " ") (map expand_ten c2) ->
  c1 = c2.
Proof.
  revert c2; induction c1 as [|a t1 IH]; intros [|b t2] V1 V2 E.
  - reflexivity.
  - pose proof (join_expand_truthy b t2) as T. rewrite <- E in T. discriminate.
  - pose proof (join_expand_truthy a t1) as T. rewrite E in T. discriminate.
  - rewrite !join_expand_cons in E.
    apply expand_ten_head in E as [-> E]; [| apply V1; now left | apply V2; now left].
    f_equal. destruct t1 as [|a1 t1], t2 as [|b1 t2]; try discriminate.
    + reflexivity.
    + apply app_inv_head in E. apply IH; try easy.
      * intros d Hd. apply V1. now right.
      * intros d Hd. apply V2. now right.
Qed.

(** The card list shows the cards: on accepted cards it is one-to-one. *)
Lemma card_list_inj (c1 c2 : str) :
  (forall d, In d c1 -> In d valid_cards) ->
  (forall d, In d c2 -> In d valid_cards) ->
  card_list c1 = card_list c2 -> c1 = c2.
Proof.
  intros V1 V2 E.
  assert (D : forall b t, (forall d, In d (b :: t) -> In d valid_cards) ->
                          py "--" <> join (py " ") (map expand_ten (b :: t))).
  { intros b t V F. rewrite join_expand_cons in F.
    unfold expand_ten in F. change (ch "T") with 84 in F.
    destruct (N.eqb_spec b 84) as [->|Nb]; [discriminate|].
    injection F as F _. subst b.
    apply (not_valid_card (ch "-")); [simpl; tauto | apply V; now left]. }
  destruct c1 as [|a t1], c2 as [|b t2]; unfold card_list in E.
  - reflexivity.
  - exfalso. now apply (D b t2).
  - exfalso. symmetry in E. now apply (D a t1).
  - now apply join_expand_inj.
Qed.

Lemma join_expand_ascii (c : str) :
  (forall d, In d c -> In d valid_cards) ->
  forall e, In e (join (py " ") (map expand_ten c)) -> e < 128.
Proof.
  induction c as [|a t IH]; intros V e He; [easy|].
  rewrite join_expand_cons in He. apply in_app_or in He as [He|He].
  - unfold expand_ten in He. destruct (a =? ch "T").
    + vm_compute in He. destruct He as [<-|[<-|[]]]; reflexivity.
    + destruct He as [<-|[]].
      assert (Ha : In a valid_cards) by (apply V; now left).
      rewrite valid_cards_eq in Ha. simpl in Ha.
      repeat (destruct Ha as [<-|Ha]; [reflexivity|]). easy.
  - destruct t as [|b t]; [easy|].
    apply in_app_or in He as [He|He].
    + vm_compute in He. destruct He as [<-|[]]. reflexivity.
    + apply IH; [|exact He]. intros d Hd. apply V. now right.
Qed.

Lemma card_list_ascii (c : str) :
  (forall d, In d c -> In d valid_cards) ->
  forall e, In e (card_list c) -> e < 128.
Proof.
  intros V e He. destruct c as [|a t].
  - vm_compute in He. destruct He as [<-|[<-|[]]]; reflexivity.
  - now apply (join_expand_ascii (a :: t)).
Qed.

Lemma split_after (d : char) (u1 u2 m r1 r2 : str) :
  (forall e, In e u1 -> e < 128) -> (forall e, In e u2 -> e < 128) ->
  (forall e, In e m -> e < 128) -> 128 <= d ->
  u1 ++ m ++ d :: r1 = u2 ++ m ++ d :: r2 -> u1 = u2 /\ r1 = r2.
Proof.
  intros H1 H2 Hm Hd E. rewrite !app_assoc in E.
  apply split_at in E as [E ->].
  - apply app_inv_tail in E. now split.
  - intros Hin. apply in_app_or in Hin as [Hin|Hin];
      [apply H1 in Hin | apply Hm in Hin]; lia.
  - intros Hin. apply in_app_or in Hin as [Hin|Hin];
      [apply H2 in Hin | apply Hm in Hin]; lia.
Qed.

Lemma hand_str (xs xh xd xc : str) :
  Hand.__str__
    (Hand.mk (SuitHolding.mk (py "S") xs) (SuitHolding.mk (py "H") xh)
             (SuitHolding.mk (py "D") xd) (SuitHolding.mk (py "C") xc))
  = Return ([0x2660] ++ py " " ++ card_list xs ++ py "  "
              ++ [0x2661] ++ py " " ++ card_list xh ++ py "  "
              ++ [0x2662] ++ py " " ++ card_list xd ++ py "  "
              ++ [0x2663] ++ py " " ++ card_list xc).
Proof.
  unfold Hand.__str__, Hand.__format__, Hand._suits.
  cbn [mapM Hand._spades Hand._hearts Hand._diamonds Hand._clubs].
  rewrite (format_plain (SuitHolding.mk (py "S") xs) [] 0%nat 0x2660),
    (format_plain (SuitHolding.mk (py "H") xh) [] 1%nat 0x2661),
    (format_plain (SuitHolding.mk (py "D") xd) [] 2%nat 0x2662),
    (format_plain (SuitHolding.mk (py "C") xc) [] 3%nat 0x2663)
    by reflexivity.
  cbn [bind SuitHolding.cards SuitHolding._cards join].
  change (Hand.joiner []) with (py "  ").
  rewrite <- ?app_assoc. reflexivity.
Qed.

(** X10: the str of a constructed hand (its plain rendering) shows the hand:
    two constructed hands with the same str are the same hand. *)
Theorem X10_hand_str_unambiguous
    (s1 h1 d1 c1 s2 h2 d2 c2 : pyobj) (hand1 hand2 : Hand.t) :
  Hand.__init__ s1 h1 d1 c1 = Return hand1 ->
  Hand.__init__ s2 h2 d2 c2 = Return hand2 ->
  Hand.__str__ hand1 = Hand.__str__ hand2 ->
  hand1 = hand2.
Proof.
  intros H1 H2 E.
  apply hand_cards_valid in H1 as (xs & xh & xd & xc & -> & Vs & Vh & Vd & Vc).
  apply hand_cards_valid in H2 as (ys & yh & yd & yc & -> & Ws & Wh & Wd & Wc).
  rewrite !hand_str in E. injection E as E.
  change (py "  ") with [32; 32] in E. change (py " ") with [32] in E.
  cbn [app] in E.
  assert (Sp : forall e, In e [32; 32] -> e < 128)
    by (intros e [<-|[<-|[]]]; reflexivity).
  apply (split_after 0x2661 (card_list xs) (card_list ys) [32; 32]) in E
      as [Es E]; try easy; try (now apply card_list_ascii).
  injection E as E.
  apply (split_after 0x2662 (card_list xh) (card_list yh) [32; 32]) in E
      as [Eh E]; try easy; try (now apply card_list_ascii).
  injection E as E.
  apply (split_after 0x2663 (card_list xd) (card_list yd) [32; 32]) in E
      as [Ed E]; try easy; try (now apply card_list_ascii).
  injection E as Ec.
  apply card_list_inj in Es, Eh, Ed, Ec; try easy. now subst.
Qed.

Lemma X10_witness : demo = demo.
Proof.
  apply (X10_hand_str_unambiguous
           (PyStr (py "ajt8")) (PyStr (py "aqt432")) (PyStr (py "a5")) (PyStr (py "7"))
           (PyStr (py "AJT8")) (PyStr (py "AQT432")) (PyStr (py "A5")) (PyStr (py "7")));
    vm_compute; reflexivity.
Defined.

(** ** Putting card strings together *)

Lemma rank_le (c : char) (r : nat) : rank c = Some r -> (r <= 13)%nat.
Proof.
  intros H. destruct (rank_canonical c r H) as (_ & Hf & _).
  apply find_lt in Hf; [|discriminate].
  change (length valid_cards) with 14%nat in Hf. lia.
Qed.

Lemma final_app (p q : str) (last : Z) :
  final last (p ++ q) = final (final last p) q.
Proof.
  revert last; induction p as [|c p IH]; intros last; [reflexivity|].
  simpl. destruct (rank c); apply IH.
Qed.

Lemma final_le (s : str) (last : Z) :
  (last <= 13)%Z -> (final last s <= 13)%Z.
Proof.
  revert last; induction s as [|c s IH]; intros last H; [easy|].
  simpl. destruct (rank c) as [r|] eqn:Hr; [|now apply IH].
  apply IH. apply rank_le in Hr. lia.
Qed.

Lemma chain_app (s1 s2 : str) (last : Z) :
  chain last (s1 ++ s2) <-> chain last s1 /\ chain (final last s1) s2.
Proof.
  revert last; induction s1 as [|c s1 IH]; intros last.
  - simpl. tauto.
  - cbn [app chain final]. split.
    + intros (r & Hr & Hstep & H). rewrite Hr. apply IH in H as [H1 H2].
      split; [now exists r | easy].
    + intros [(r & Hr & Hstep & H1) H2]. rewrite Hr in H2.
      exists r. repeat split; try easy. apply IH. now split.
Qed.

Lemma chain_junction (s1 s2 : str) :
  chain (-1) s1 ->
  (chain (final (-1) s1) s2 <-> chain (-1) s2 /\ junction s1 s2).
Proof.
  intros H1. destruct s2 as [|b q].
  - split; [|easy]. intros _. split; [easy|]. intros p a b q _ E. discriminate.
  - assert (D : s1 = [] \/ exists p a, s1 = p ++ [a]).
    { destruct s1 as [|x s1]; [now left | right].
      destruct (@exists_last _ (x :: s1)) as (p & a & E); [discriminate|].
      now exists p, a. }
    destruct D as [->|(p & a & ->)]; [|].
    2: { apply chain_app in H1 as [_ Ha]. destruct Ha as (ra & Hra & _).
      rewrite final_app. cbn [final]. rewrite Hra. cbn [chain]. split.
      * intros (rb & Hrb & Hstep & Hq). split.
        -- exists rb. repeat split; try easy. left. lia.
        -- intros p' a' b' q' E [= <- <-].
           apply app_inj_tail in E as [_ <-].
           exists ra, rb. repeat split; try easy.
           destruct Hstep as [?|[? ?]]; [left; lia | right; split; lia].
      * intros [(rb & Hrb & _ & Hq) J].
        destruct (J p a b q eq_refl eq_refl) as (ra' & rb' & Ha' & Hb' & Hstep).
        rewrite Hra in Ha'. rewrite Hrb in Hb'.
        injection Ha' as <-. injection Hb' as <-.
        exists rb. repeat split; try easy.
        destruct Hstep as [?|[-> ->]]; [left; lia | now right]. }
    cbn [final chain]. split.
    + intros H. split; [easy|]. intros p a b' q' E. now destruct p.
    + now intros [H _].
Qed.

(** X11: a placeholder can always be added at the end: if a card string is
    accepted, so is the string with one more x (or X) after it, and the stored
    cards get one more x. *)
Theorem X11_append_placeholder (s c : str) (a : char) :
  rank a = Some placeholder_rank ->
  SuitHolding._validate_cards (PyStr s) = Return c ->
  SuitHolding._validate_cards (PyStr (s ++ [a])) = Return (c ++ py "x").
Proof.
  intros Ha H. apply validate_cards_inv in H as (s' & [= <-] & -> & Hscan).
  apply scan_chain in Hscan as Hch.
  destruct (rank_canonical a _ Ha) as (Hca & _ & Hx).
  assert (Hn : normalize_case a = 120) by now apply Hx.
  rewrite validate_cards_str, canonical_app.
  assert (Hc' : canonical [a] = py "x").
  { rewrite canonical_cons, Hca, Hn. reflexivity. }
  rewrite Hc'. rewrite <- Hc', <- canonical_app.
  rewrite (proj2 (scan_chain (s ++ [a]) (-1))).
  - now rewrite canonical_app, Hc'.
  - apply chain_app. split; [easy|].
    exists placeholder_rank. repeat split; [easy|].
    pose proof (final_le s (-1) ltac:(lia)) as L.
    unfold placeholder_rank.
    destruct (Z.eq_dec (final (-1) s) 13); [right; split; [lia|reflexivity] | left; lia].
Qed.

Lemma X11_witness :
  SuitHolding._validate_cards (PyStr (py "kx" ++ [ch "X"]))
  = Return (py "Kx" ++ py "x").
Proof.
  apply (X11_append_placeholder (py "kx") (py "Kx") (ch "X")).
  - reflexivity.
  - vm_compute. reflexivity.
Defined.

(** X12: two card strings put end to end are accepted exactly when each is
    accepted and the first card of the second may follow the last card of the
    first (a lower rank, or placeholder after placeholder); the stored cards
    are then the two stored card strings end to end. *)
Theorem X12_concatenation (s1 s2 c : str) :
  SuitHolding._validate_cards (PyStr (s1 ++ s2)) = Return c
  <-> exists c1 c2,
      SuitHolding._validate_cards (PyStr s1) = Return c1
      /\ SuitHolding._validate_cards (PyStr s2) = Return c2
      /\ junction s1 s2
      /\ c = c1 ++ c2.
Proof.
  split.
  - intros H. apply validate_cards_inv in H as (s & [= <-] & -> & Hscan).
    apply scan_chain, chain_app in Hscan as [H1 H2].
    apply (chain_junction s1 s2 H1) in H2 as [H2 J].
    exists (canonical s1), (canonical s2).
    rewrite !validate_cards_str.
    rewrite (proj2 (scan_chain s1 (-1)) H1), (proj2 (scan_chain s2 (-1)) H2).
    repeat split; [easy | apply canonical_app].
  - intros (c1 & c2 & H1 & H2 & J & ->).
    apply validate_cards_inv in H1 as (s & [= <-] & -> & Hs1).
    apply validate_cards_inv in H2 as (s & [= <-] & -> & Hs2).
    apply scan_chain in Hs1, Hs2.
    rewrite validate_cards_str, canonical_app.
    rewrite <- canonical_app.
    rewrite (proj2 (scan_chain (s1 ++ s2) (-1))); [now rewrite canonical_app|].
    apply chain_app. split; [easy|]. now apply chain_junction.
Qed.

Lemma X12_witness :
  exists c1 c2,
    SuitHolding._validate_cards (PyStr (py "akq")) = Return c1
    /\ SuitHolding._validate_cards (PyStr (py "t9xx")) = Return c2
    /\ junction (py "akq") (py "t9xx")
    /\ py "AKQT9xx" = c1 ++ c2.
Proof.
  apply (proj1 (X12_concatenation (py "akq") (py "t9xx") (py "AKQT9xx"))).
  vm_compute. reflexivity.
Defined.
